(** * Unboxed: the product-parsing service

    A shallow embedding of the three JavaScript sources of the repository
    (the HTTP endpoint of [server.js] and the two versions of
    [productService.js]) together with the properties of its specification.

    Conventions of the embedding.
    - A JavaScript string is a [string]: a sequence of code units below 256.
      Text outside Latin-1 is outside the model.
    - A regular expression literal is a value of [regex]; [rmatch] is the
      backtracking matcher of ECMAScript (leftmost, greedy or lazy
      quantifiers in priority order, an iteration of a star has to consume
      input).  None of the patterns of the sources has a capture group under
      a quantifier, so the reset of captures at each iteration is not needed.
    - [undefined] is [None].  A method call on [undefined] or [null] raises a
      [TypeError]; fallible code lives in the [result] monad.
    - [console.log] and [console.error] write to the process log only and
      are left out. *)

From Stdlib Require Import List Bool Arith NArith ZArith Lia Ascii String.
Import ListNotations.
Open Scope string_scope.

(* ================================================================== *)
(** * Characters and the string methods the sources call *)

Module Js.

Definition code (c : ascii) : N := N_of_ascii c.

Definition between (lo hi : N) (c : ascii) : bool :=
  ((lo <=? code c) && (code c <=? hi))%N.

(** [\d] *)
Definition is_digit (c : ascii) : bool := between 48 57 c.

(** [\s], which is also what [trim] strips: tab, line feed, vertical tab,
    form feed, carriage return, space and no-break space. *)
Definition is_space (c : ascii) : bool :=
  between 9 13 c || (code c =? 32)%N || (code c =? 160)%N.

(** The characters [.] does not match. *)
Definition is_line_terminator (c : ascii) : bool :=
  (code c =? 10)%N || (code c =? 13)%N.

(** [\w], used by [\b]. *)
Definition is_word (c : ascii) : bool :=
  between 48 57 c || between 65 90 c || between 97 122 c || (code c =? 95)%N.

(** Canonicalize of a case-insensitive pattern: the upper-case form, when it
    is one code unit of the alphabet. *)
Definition to_upper (c : ascii) : ascii :=
  if between 97 122 c || (between 224 254 c && negb (code c =? 247)%N)
  then ascii_of_N (code c - 32) else c.

Definition to_lower (c : ascii) : ascii :=
  if between 65 90 c || (between 192 222 c && negb (code c =? 215)%N)
  then ascii_of_N (code c + 32) else c.

Fixpoint toLowerCase (s : string) : string :=
  match s with
  | "" => ""
  | String c t => String (to_lower c) (toLowerCase t)
  end.

Fixpoint mem (c : ascii) (s : string) : bool :=
  match s with
  | "" => false
  | String x t => Ascii.eqb c x || mem c t
  end.

(** [s.includes(sub)] *)
Fixpoint includes (s sub : string) : bool :=
  prefix sub s ||
  match s with
  | "" => false
  | String _ t => includes t sub
  end.

Fixpoint trimStart (s : string) : string :=
  match s with
  | "" => ""
  | String c t => if is_space c then trimStart t else s
  end.

Fixpoint trimEnd (s : string) : string :=
  match s with
  | "" => ""
  | String c t =>
      match trimEnd t with
      | "" => if is_space c then "" else String c ""
      | t' => String c t'
      end
  end.

(** [s.trim()] *)
Definition trim (s : string) : string := trimEnd (trimStart s).

(** [s.substring(0, n)] *)
Definition substring0 (n : nat) (s : string) : string := substring 0 n s.

(** [l.join(sep)] *)
Definition join (sep : string) (l : list string) : string :=
  String.concat sep l.

(** Truthiness of a string and of a possibly undefined string. *)
Definition truthy (s : string) : bool :=
  match s with "" => false | _ => true end.

Definition truthy_opt (o : option string) : bool :=
  match o with Some s => truthy s | None => false end.

(** [[...new Set(l)]]: the elements of [l] in the order of their first
    occurrence, compared as strings (so case-sensitively). *)
Fixpoint new_Set_from (seen l : list string) : list string :=
  match l with
  | [] => []
  | x :: t =>
      if existsb (String.eqb x) seen then new_Set_from seen t
      else x :: new_Set_from (x :: seen) t
  end.

Definition new_Set (l : list string) : list string := new_Set_from [] l.

(** A text in which every backquote stands for a double quote. *)
Fixpoint dq (s : string) : string :=
  match s with
  | "" => ""
  | String c t => String (if Ascii.eqb c "`" then "034"%char else c) (dq t)
  end.

End Js.

(* ================================================================== *)
(** * Regular expressions *)

Module Regex.

Import Js.

Inductive cset : Type :=
| Any                    (** [[\s\S]] *)
| Dot                    (** [.] *)
| Space                  (** [\s] *)
| Digit                  (** [\d] *)
| OneOf (cs : string)    (** [[abc]] *)
| NoneOf (cs : string)   (** [[^abc]] *)
| SpaceOr (cs : string). (** [[\sabc]] *)

Inductive regex : Type :=
| Eps
| Lit (c : ascii)
| Cls (cs : cset)
| Seq (a b : regex)
| Alt (a b : regex)
| Star (greedy : bool) (a : regex)
| Group (n : nat) (a : regex)
| NotAhead (a : regex)
| WordBoundary
| Bol
| Eol.

(** The literal text [s]. *)
Fixpoint lits (s : string) : regex :=
  match s with
  | "" => Eps
  | String c t => Seq (Lit c) (lits t)
  end.

Definition seq (l : list regex) : regex := fold_right Seq Eps l.

(** [a+], [a?] and [a{2,}] *)
Definition Plus (a : regex) : regex := Seq a (Star true a).
Definition Opt (a : regex) : regex := Alt a Eps.
Definition AtLeast2 (a : regex) : regex := Seq a (Seq a (Star true a)).

Definition in_cset (cs : cset) (c : ascii) : bool :=
  match cs with
  | Any => true
  | Dot => negb (is_line_terminator c)
  | Space => is_space c
  | Digit => is_digit c
  | OneOf l => mem c l
  | NoneOf l => negb (mem c l)
  | SpaceOr l => is_space c || mem c l
  end.

(** A literal of the pattern against a character of the input; [i] is the
    [i] flag. *)
Definition lit_ok (i : bool) (p c : ascii) : bool :=
  if i then Ascii.eqb (to_upper p) (to_upper c) else Ascii.eqb p c.

(** The state of a match: the input still to read, the character before it
    and the captures so far. *)
Record mstate : Type := MState {
  rest : string;
  prev : option ascii;
  caps : list (nat * string)
}.

Definition cont : Type := mstate -> option mstate.

(** What was read between the states [s] and [s']. *)
Definition taken (s s' : mstate) : string :=
  substring 0 (length (rest s) - length (rest s')) (rest s).

Definition eat (ok : ascii -> bool) (k : cont) (s : mstate) : option mstate :=
  match rest s with
  | "" => None
  | String c t => if ok c then k (MState t (Some c) (caps s)) else None
  end.

Definition word_before (s : mstate) : bool :=
  match prev s with Some c => is_word c | None => false end.

Definition word_after (s : mstate) : bool :=
  match rest s with String c _ => is_word c | "" => false end.

(** The iterations of a star whose body is matched by [body].  An iteration
    that reads nothing is refused, so [fuel] above the length of the input
    is never used up. *)
Fixpoint star_loop (greedy : bool) (body : cont -> cont) (k : cont)
    (fuel : nat) (s : mstate) : option mstate :=
  match fuel with
  | 0 => k s
  | S f =>
      let again s' :=
        if Nat.ltb (length (rest s')) (length (rest s))
        then star_loop greedy body k f s' else None in
      if greedy then
        match body again s with
        | Some e => Some e
        | None => k s
        end
      else
        match k s with
        | Some e => Some e
        | None => body again s
        end
  end.

Fixpoint rmatch (i : bool) (r : regex) (k : cont) (s : mstate)
    : option mstate :=
  match r with
  | Eps => k s
  | Lit p => eat (lit_ok i p) k s
  | Cls cs => eat (in_cset cs) k s
  | Seq a b => rmatch i a (rmatch i b k) s
  | Alt a b =>
      match rmatch i a k s with
      | Some e => Some e
      | None => rmatch i b k s
      end
  | Star g a => star_loop g (rmatch i a) k (S (length (rest s))) s
  | Group n a =>
      rmatch i a (fun s' => k (MState (rest s') (prev s')
                                  ((n, taken s s') :: caps s'))) s
  | NotAhead a =>
      match rmatch i a Some s with
      | Some _ => None
      | None => k s
      end
  | WordBoundary => if xorb (word_before s) (word_after s) then k s else None
  | Bol => match prev s with None => k s | Some _ => None end
  | Eol => match rest s with "" => k s | _ => None end
  end.

(** A regular expression literal with its [i] flag. *)
Record pattern : Type := Pattern { icase : bool; body : regex }.

(** The array a successful match returns: [m[0]] and the captures. *)
Record match_array : Type := MatchArray {
  index : nat;
  whole : string;
  groups : list (nat * string)
}.

Fixpoint lookup (n : nat) (l : list (nat * string)) : option string :=
  match l with
  | [] => None
  | (m, v) :: t => if Nat.eqb n m then Some v else lookup n t
  end.

(** [m[n]], [undefined] when the group took no part in the match. *)
Definition group (n : nat) (m : match_array) : option string :=
  match n with
  | 0 => Some (whole m)
  | _ => lookup n (groups m)
  end.

(** The match that starts exactly at the input [s]. *)
Definition match_here (p : pattern) (before : option ascii) (s : string)
    : option mstate :=
  rmatch (icase p) (body p) Some (MState s before []).

Definition as_array (idx : nat) (s : string) (e : mstate) : match_array :=
  MatchArray idx (substring 0 (length s - length (rest e)) s) (caps e).

Fixpoint search (p : pattern) (before : option ascii) (s : string)
    (idx : nat) : option match_array :=
  match match_here p before s with
  | Some e => Some (as_array idx s e)
  | None =>
      match s with
      | "" => None
      | String c t => search p (Some c) t (S idx)
      end
  end.

(** [s.match(p)] for a pattern without the [g] flag. *)
Definition exec (p : pattern) (s : string) : option match_array :=
  search p None s 0.

(** [p.test(s)] *)
Definition test (p : pattern) (s : string) : bool :=
  match exec p s with Some _ => true | None => false end.

(** The successive matches of a pattern with the [g] flag.  [skip] counts
    the characters of the last match still to pass; after an empty match the
    search resumes one character further. *)
Fixpoint scan (p : pattern) (before : option ascii) (s : string)
    (skip : nat) : list string :=
  match skip with
  | S n =>
      match s with
      | "" => []
      | String c t => scan p (Some c) t n
      end
  | 0 =>
      match match_here p before s with
      | Some e =>
          let w := substring 0 (length s - length (rest e)) s in
          w :: match s with
               | "" => []
               | String c t => scan p (Some c) t (length w - 1)
               end
      | None =>
          match s with
          | "" => []
          | String c t => scan p (Some c) t 0
          end
      end
  end.

(** [s.match(p)] for a pattern with the [g] flag: [null] without a match. *)
Definition match_all (p : pattern) (s : string) : option (list string) :=
  match scan p None s 0 with
  | [] => None
  | l => Some l
  end.

(** [s.match(p) || []] *)
Definition match_all_or_empty (p : pattern) (s : string) : list string :=
  scan p None s 0.

(** [s.replace(p, by)] for a pattern with the [g] flag and a replacement
    text without [$]. *)
Fixpoint replace_scan (p : pattern) (by_ : string) (before : option ascii)
    (s : string) (skip : nat) : string :=
  match skip with
  | S n =>
      match s with
      | "" => ""
      | String c t => replace_scan p by_ (Some c) t n
      end
  | 0 =>
      match match_here p before s with
      | Some e =>
          match length s - length (rest e), s with
          | _, "" => by_
          | 0, String c t => by_ ++ String c (replace_scan p by_ (Some c) t 0)
          | S n, String c t => by_ ++ replace_scan p by_ (Some c) t n
          end
      | None =>
          match s with
          | "" => ""
          | String c t => String c (replace_scan p by_ (Some c) t 0)
          end
      end
  end.

Definition replace_all (p : pattern) (by_ : string) (s : string) : string :=
  replace_scan p by_ None s 0.

End Regex.

(* ================================================================== *)
(** * Errors *)

(** The outcome of code that may throw: the value it returns, or the
    [message] of the [Error] it throws. *)
Inductive result (A : Type) : Type :=
| Ok (a : A)
| Throw (message : string).

Arguments Ok {A} a.
Arguments Throw {A} message.

Definition bind {A B : Type} (m : result A) (f : A -> result B) : result B :=
  match m with
  | Ok a => f a
  | Throw e => Throw e
  end.

Notation "x <- m ;; k" := (bind m (fun x => k))
  (at level 61, m at next level, right associativity).

(** [try { body } catch (error) { handler(error.message) }] *)
Definition try_catch {A : Type} (body : result A) (handler : string -> result A)
    : result A :=
  match body with
  | Ok a => Ok a
  | Throw e => handler e
  end.

(** The receiver of a method call: reading a property of [undefined] throws
    a [TypeError]. *)
Definition receiver (what : string) (o : option string) : result string :=
  match o with
  | Some s => Ok s
  | None =>
      Throw ("Cannot read properties of undefined (reading '" ++ what ++ "')")
  end.

(** [for (const x of l) { acc = f(acc, x) }] *)
Fixpoint for_of {A S : Type} (l : list A) (f : S -> A -> result S) (acc : S)
    : result S :=
  match l with
  | [] => Ok acc
  | x :: t => acc' <- f acc x ;; for_of t f acc'
  end.

(** [a || b] on the results of [match]. *)
Definition orelse {A : Type} (a b : option A) : option A :=
  match a with
  | Some _ => a
  | None => b
  end.

Infix "|||" := orelse (at level 50, left associativity).

(** [l.push(x)] *)
Definition push {A : Type} (l : list A) (x : A) : list A := (l ++ [x])%list.

(* ================================================================== *)
(** * The patterns of the sources *)

Module Patterns.

(** In the comments of this module [Q] stands for the double quote, and a
    star is kept apart from a closing parenthesis that follows it. *)

Import Js Regex.

Definition nl : string := String "010"%char "".

(** The class [[Q|']]. *)
Definition quote : regex := Cls (OneOf (String "034"%char "|'")).

(** [[^>]*], [(.*?)] and [([\s\S]*?)] *)
Definition attrs : regex := Star true (Cls (NoneOf ">")).
Definition line1 : regex := Group 1 (Star false (Cls Dot)).
Definition block1 : regex := Group 1 (Star false (Cls Any)).

(** [/<tag[^>]*>(.*?)<\/tag>/i] *)
Definition element (tag : string) : pattern :=
  Pattern true
    (seq [lits ("<" ++ tag); attrs; Lit ">"; line1; lits ("</" ++ tag ++ ">")]).

(** [/<tag[^>]*key[^>]*>(.*?)<\/tag>/i] *)
Definition element_with (tag : string) (key : regex) : pattern :=
  Pattern true
    (seq [lits ("<" ++ tag); attrs; key; attrs; Lit ">"; line1;
          lits ("</" ++ tag ++ ">")]).

(** [/<tag[^>]*key[^>]*>([\s\S]*?)<\/tag>/i] *)
Definition container (tag : string) (key : regex) : pattern :=
  Pattern true
    (seq [lits ("<" ++ tag); attrs; key; attrs; Lit ">"; block1;
          lits ("</" ++ tag ++ ">")]).

(** [/name=[Q|'](.*?)[Q|']/i] *)
Definition attribute (name : string) : pattern :=
  Pattern true (seq [lits (name ++ "="); quote; line1; quote]).

(** [/class=[Q|']name[Q|'][^>]*>(.*?)<\/tag>/i] *)
Definition classed (name tag : string) : pattern :=
  Pattern true
    (seq [lits "class="; quote; lits name; quote; attrs; Lit ">"; line1;
          lits ("</" ++ tag ++ ">")]).

(** [/<meta[^>]*key[^>]*content=[Q|'](.*?)[Q|']/i] *)
Definition meta (key : string) : pattern :=
  Pattern true
    (seq [lits "<meta"; attrs; lits key; attrs; lits "content="; quote; line1;
          quote]).

(** [/<h1[^>]*>(.*?)<\/h1>/i], [/<title[^>]*>(.*?)<\/title>/i] and
    [/<div[^>]*product-title[^>]*>(.*?)<\/div>/i] *)
Definition h1 : pattern := element "h1".
Definition title : pattern := element "title".
Definition div_product_title : pattern :=
  element_with "div" (lits "product-title").

(** [/class=[Q|']price[Q|'][^>]*>(.*?)<\/span>/i],
    [/class=[Q|']product-price[Q|'][^>]*>(.*?)<\/div>/i] and
    [/\$(\d+\.?\d* )/i] *)
Definition price_span : pattern := classed "price" "span".
Definition product_price_div : pattern := classed "product-price" "div".
Definition dollars : pattern :=
  Pattern true
    (seq [Lit "$";
          Group 1 (seq [Plus (Cls Digit); Opt (Lit "."); Star true (Cls Digit)])]).

(** [/<div[^>]*(?:product-description|description)[^>]*>([\s\S]*?)<\/div>/i]
    and [/<meta[^>]*description[^>]*content=[Q|'](.*?)[Q|']/i] *)
Definition description_div : pattern :=
  container "div" (Alt (lits "product-description") (lits "description")).
Definition meta_description : pattern := meta "description".

(** [/<nav[^>]*breadcrumb[^>]*>([\s\S]*?)<\/nav>/i] and
    [/<meta[^>]*product:category[^>]*content=[Q|'](.*?)[Q|']/i] *)
Definition breadcrumb_nav : pattern := container "nav" (lits "breadcrumb").
Definition meta_category : pattern := meta "product:category".

(** [/<[^>]*>/g] *)
Definition any_tag : pattern := Pattern false (seq [Lit "<"; attrs; Lit ">"]).

(** [(?:size|variant)] and [(?:color|colour)] *)
Definition size_key : regex := Alt (lits "size") (lits "variant").
Definition color_key : regex := Alt (lits "color") (lits "colour").

(** [/<option[^>]*>(.*?)<\/option>/gi] and its siblings for [li], [button]
    and [a]; [/<div[^>]*option[^>]*>(.*?)<\/div>/gi],
    [/<div[^>]*swatch[^>]*>(.*?)<\/div>/gi] and
    [/<span[^>]*color[^>]*>(.*?)<\/span>/gi] *)
Definition option_item : pattern := element "option".
Definition li_item : pattern := element "li".
Definition button_item : pattern := element "button".
Definition a_item : pattern := element "a".
Definition div_option_item : pattern := element_with "div" (lits "option").
Definition div_swatch_item : pattern := element_with "div" (lits "swatch").
Definition span_color_item : pattern := element_with "span" (lits "color").

(** [[\s-]*] *)
Definition gap : regex := Star true (Cls (SpaceOr "-")).

(** [/disabled|sold[\s-]*out|out[\s-]*of[\s-]*stock|unavailable/i] *)
Definition unavailable : pattern :=
  Pattern true
    (Alt (lits "disabled")
      (Alt (seq [lits "sold"; gap; lits "out"])
        (Alt (seq [lits "out"; gap; lits "of"; gap; lits "stock"])
             (lits "unavailable")))).

(** [/value=[Q|'](.*?)[Q|']/i], [/class=[Q|'](.*?)[Q|']/i] and
    [/data-color=[Q|'](.*?)[Q|']/i] *)
Definition value_attr : pattern := attribute "value".
Definition class_attr : pattern := attribute "class".
Definition data_color_attr : pattern := attribute "data-color".

(** [/^\d+$/] *)
Definition all_digits : pattern :=
  Pattern false (seq [Bol; Plus (Cls Digit); Eol]).

(** [/style=[Q|'].*?background(?:-color)?:\s*(.*?)[;Q|']/i] *)
Definition style_background : pattern :=
  Pattern true
    (seq [lits "style="; quote; Star false (Cls Dot); lits "background";
          Opt (lits "-color"); Lit ":"; Star true (Cls Space); line1;
          Cls (OneOf (String "034"%char ";|'"))]).

(** [/\s+/] *)
Definition spaces : pattern := Pattern false (Plus (Cls Space)).

(** [/<tag\b[^<]*(?:(?!<\/tag>)<[^<]* )*<\/tag>/gi] *)
Definition block_of (tag : string) : pattern :=
  let close := lits ("</" ++ tag ++ ">") in
  let text := Star true (Cls (NoneOf "<")) in
  Pattern true
    (seq [lits ("<" ++ tag); WordBoundary; text;
          Star true (seq [NotAhead close; Lit "<"; text]); close]).

(** [/<!--[\s\S]*?-->/g] and [/\s{2,}/g] *)
Definition comment : pattern :=
  Pattern false (seq [lits "<!--"; Star false (Cls Any); lits "-->"]).
Definition blanks : pattern := Pattern false (AtLeast2 (Cls Space)).

(** [/\{[\s\S]*\}/] *)
Definition braces : pattern :=
  Pattern false (seq [Lit "{"; Star true (Cls Any); Lit "}"]).

(** [/<[^>]*(?:key)[^>]*>(?:(?!<\/div>)[\s\S])*<\/[^>]*>/gi] *)
Definition section_of (key : regex) : pattern :=
  Pattern true
    (seq [Lit "<"; attrs; key; attrs; Lit ">";
          Star true (seq [NotAhead (lits "</div>"); Cls Any]);
          lits "</"; attrs; Lit ">"]).

(** [/<h1[^>]*>.*?<\/h1>/gi] *)
Definition h1_all : pattern :=
  Pattern true
    (seq [lits "<h1"; attrs; Lit ">"; Star false (Cls Dot); lits "</h1>"]).

End Patterns.

(* ================================================================== *)
(** * JSON values and [JSON.parse] *)

Module Json.

Import Js.

(** A JSON value.  A number [JNumber m e] is the decimal [m * 10^e] with [m]
    not a multiple of ten (or [m = 0] and [e = 0]); the rounding of a
    number to a double is not modelled.  An object keeps its properties in
    the order of their creation. *)
#[warnings="-register-all"]
Inductive json : Type :=
| JNull
| JBool (b : bool)
| JNumber (m e : Z)
| JString (s : string)
| JArray (items : list json)
| JObject (fields : list (string * json)).

(** Writing the property [k] of an object under construction. *)
Fixpoint set_field (k : string) (v : json) (fields : list (string * json))
    : list (string * json) :=
  match fields with
  | [] => [(k, v)]
  | (k', v') :: t =>
      if String.eqb k k' then (k, v) :: t else (k', v') :: set_field k v t
  end.

Fixpoint get_field (k : string) (fields : list (string * json)) : option json :=
  match fields with
  | [] => None
  | (k', v) :: t => if String.eqb k k' then Some v else get_field k t
  end.

Definition is_ws (c : ascii) : bool :=
  (code c =? 32)%N || (code c =? 9)%N || (code c =? 10)%N || (code c =? 13)%N.

Fixpoint skip_ws (s : string) : string :=
  match s with
  | String c t => if is_ws c then skip_ws t else s
  | "" => ""
  end.

Definition digit_value (c : ascii) : Z := Z.of_N (code c) - 48.

Definition hex_value (c : ascii) : option N :=
  if between 48 57 c then Some (code c - 48)%N
  else if between 97 102 c then Some (code c - 87)%N
  else if between 65 70 c then Some (code c - 55)%N
  else None.

(** The digits at the head of [s]: their value after [acc], how many they
    are, and what follows them. *)
Fixpoint digits (s : string) (acc : Z) (n : nat) : Z * nat * string :=
  match s with
  | String c t =>
      if is_digit c then digits t (acc * 10 + digit_value c) (S n)
      else (acc, n, s)
  | "" => (acc, n, s)
  end.

(** Removes the factors ten of a mantissa. *)
Fixpoint normalize (fuel : nat) (m e : Z) : Z * Z :=
  match fuel with
  | 0 => (m, e)
  | S f =>
      if (m =? 0)%Z then (0, 0)%Z
      else if (m mod 10 =? 0)%Z then normalize f (m / 10) (e + 1)
      else (m, e)
  end.

(** A number: [-? int frac? exp?]. *)
Definition number (s : string) : option (json * string) :=
  let '(neg, s1) :=
    match s with
    | String "-" t => (true, t)
    | _ => (false, s)
    end in
  let '(int, ni, s2) := digits s1 0 0 in
  let leading_zero :=
    match s1 with
    | String "0" _ => true
    | _ => false
    end in
  if (ni =? 0)%nat || (leading_zero && (1 <? ni)%nat) then None
  else
    let frac :=
      match s2 with
      | String "." t =>
          let '(m, nf, s3) := digits t int 0 in
          if (nf =? 0)%nat then None else Some (m, nf, s3)
      | _ => Some (int, 0%nat, s2)
      end in
    match frac with
    | None => None
    | Some (m, nf, s3) =>
        let expo :=
          match s3 with
          | String c t =>
              if Ascii.eqb c "e" || Ascii.eqb c "E" then
                let '(eneg, t1) :=
                  match t with
                  | String "-" u => (true, u)
                  | String "+" u => (false, u)
                  | _ => (false, t)
                  end in
                let '(x, nx, s4) := digits t1 0 0 in
                if (nx =? 0)%nat then None
                else Some (if eneg then (- x)%Z else x, s4)
              else Some (0%Z, s3)
          | "" => Some (0%Z, s3)
          end in
        match expo with
        | None => None
        | Some (x, s4) =>
            let '(m', e') :=
              normalize (S (ni + nf))
                (if neg then (- m)%Z else m) (x - Z.of_nat nf)%Z in
            Some (JNumber m' e', s4)
        end
    end.

(** The characters of a string after its opening quote. *)
Fixpoint chars (s : string) : option (string * string) :=
  match s with
  | "" => None
  | String c t =>
      if Ascii.eqb c "034" then Some ("", t)
      else if (code c <? 32)%N then None
      else if Ascii.eqb c "\" then
        match t with
        | String e u =>
            let simple (x : ascii) :=
              match chars u with
              | Some (r, v) => Some (String x r, v)
              | None => None
              end in
            if Ascii.eqb e "034" then simple "034"%char
            else if Ascii.eqb e "\" then simple "\"%char
            else if Ascii.eqb e "/" then simple "/"%char
            else if Ascii.eqb e "b" then simple "008"%char
            else if Ascii.eqb e "f" then simple "012"%char
            else if Ascii.eqb e "n" then simple "010"%char
            else if Ascii.eqb e "r" then simple "013"%char
            else if Ascii.eqb e "t" then simple "009"%char
            else if Ascii.eqb e "u" then
              match u with
              | String a (String b (String c' (String d v))) =>
                  match hex_value a, hex_value b, hex_value c', hex_value d with
                  | Some 0%N, Some 0%N, Some h, Some l =>
                      match chars v with
                      | Some (r, w) => Some (String (ascii_of_N (h * 16 + l)) r, w)
                      | None => None
                      end
                  | _, _, _, _ => None
                  end
              | _ => None
              end
            else None
        | "" => None
        end
      else
        match chars t with
        | Some (r, v) => Some (String c r, v)
        | None => None
        end
  end.

Definition literal (word : string) (v : json) (s : string)
    : option (json * string) :=
  if prefix word s then Some (v, substring (length word) (length s) s)
  else None.

(** A value, the elements of an array after its bracket and the members of
    an object after its brace.  Every call reads at least one character
    before the next one, so [fuel] above twice the length of the text is
    never used up. *)
Fixpoint value (fuel : nat) (s : string) : option (json * string) :=
  match fuel with
  | 0 => None
  | S f =>
      match skip_ws s with
      | "" => None
      | String c t =>
          if Ascii.eqb c "{" then
            match skip_ws t with
            | String "}" u => Some (JObject [], u)
            | _ => members f t []
            end
          else if Ascii.eqb c "[" then
            match skip_ws t with
            | String "]" u => Some (JArray [], u)
            | _ => elements f t []
            end
          else if Ascii.eqb c "034" then
            match chars t with
            | Some (r, u) => Some (JString r, u)
            | None => None
            end
          else if Ascii.eqb c "t" then literal "true" (JBool true) (String c t)
          else if Ascii.eqb c "f" then literal "false" (JBool false) (String c t)
          else if Ascii.eqb c "n" then literal "null" JNull (String c t)
          else number (String c t)
      end
  end

with elements (fuel : nat) (s : string) (acc : list json)
    : option (json * string) :=
  match fuel with
  | 0 => None
  | S f =>
      match value f s with
      | Some (v, t) =>
          match skip_ws t with
          | String "," u => elements f u (acc ++ [v])%list
          | String "]" u => Some (JArray (acc ++ [v])%list, u)
          | _ => None
          end
      | None => None
      end
  end

with members (fuel : nat) (s : string) (acc : list (string * json))
    : option (json * string) :=
  match fuel with
  | 0 => None
  | S f =>
      match skip_ws s with
      | String "034" t =>
          match chars t with
          | Some (k, u) =>
              match skip_ws u with
              | String ":" w =>
                  match value f w with
                  | Some (v, x) =>
                      match skip_ws x with
                      | String "," y => members f y (set_field k v acc)
                      | String "}" y => Some (JObject (set_field k v acc), y)
                      | _ => None
                      end
                  | None => None
                  end
              | _ => None
              end
          | None => None
          end
      | _ => None
      end
  end.

(** [JSON.parse(text)]: the value, or [None] for the [SyntaxError].  A
    [\u] escape above [00FF] names a code unit outside the alphabet of the
    model and is refused. *)
Definition parse (text : string) : option json :=
  match value (2 * length text + 2) text with
  | Some (v, t) =>
      match skip_ws t with
      | "" => Some v
      | _ => None
      end
  | None => None
  end.

(** [JSON.parse] as a function that throws. *)
Definition strict_parse (text : string) : result json :=
  match parse text with
  | Some v => Ok v
  | None => Throw "Unexpected token in JSON"
  end.

End Json.

(* ================================================================== *)
(** * The host: outbound calls and their log *)

Module Host.

Import Json.

(** The request [openai.chat.completions.create] is given. *)
Record request : Type := Request {
  model : string;
  system_content : string;
  user_content : string;
  response_format : option string;
  max_tokens : nat;
  temperature : json
}.

(** The answer of the completion endpoint: the [message.content] of each of
    its [choices], [None] for a [null] content. *)
Record completion : Type := Completion { choices : list (option string) }.

(** What the service relies on and does not define: [JSON.parse], which
    throws on a malformed text; [axios.get(url, { headers })], which gives
    the [data] of the response or throws; and the completion call of a
    client made with [apiKey], which gives the completion or throws (no
    network, bad credential, rate limit).  Whatever they throw is an [Error]
    with a text for [message]. *)
Record host : Type := HostOf {
  JSON_parse : string -> result json;
  axios_get : string -> string -> result string;
  chat_completions_create : string -> request -> result completion
}.

(** An outbound call. *)
Inductive call : Type :=
| PageFetch (url : string)
| CompletionCall (apiKey : string) (r : request).

(** Code that makes outbound calls: the calls made, in order, and the
    outcome. *)
Definition io (A : Type) : Type := list call * result A.

Definition ret {A : Type} (a : A) : io A := ([], Ok a).

Definition lift {A : Type} (r : result A) : io A := ([], r).

Definition io_bind {A B : Type} (m : io A) (f : A -> io B) : io B :=
  match m with
  | (l, Ok a) => let '(l', r) := f a in ((l ++ l')%list, r)
  | (l, Throw e) => (l, Throw e)
  end.

Notation "x <~ m ;; k" := (io_bind m (fun x => k))
  (at level 61, m at next level, right associativity).

(** [try { body } catch (error) { handler(error.message) }] around code that
    makes calls. *)
Definition io_try {A : Type} (body : io A) (handler : string -> io A) : io A :=
  match body with
  | (l, Ok a) => (l, Ok a)
  | (l, Throw e) => let '(l', r) := handler e in ((l ++ l')%list, r)
  end.

Definition userAgent : string :=
  "Mozilla/5.0 (Windows NT 10.0; Win64; x64) AppleWebKit/537.36 (KHTML, like Gecko) Chrome/91.0.4472.124 Safari/537.36".

Definition get_page (h : host) (url : string) : io string :=
  ([PageFetch url], axios_get h url userAgent).

Definition create (h : host) (apiKey : string) (r : request) : io completion :=
  ([CompletionCall apiKey r], chat_completions_create h apiKey r).

(** [response.choices[0].message.content] *)
Definition first_content (r : completion) : result (option string) :=
  match choices r with
  | c :: _ => Ok c
  | [] => Throw "Cannot read properties of undefined (reading 'message')"
  end.

(** [content.substring(0, 100)] in the line that logs the answer: it throws
    on a [null] content. *)
Definition logged (content : option string) : result string :=
  match content with
  | Some s => Ok s
  | None => Throw "Cannot read properties of null (reading 'substring')"
  end.

(** What a service module exports. *)
Record service : Type := Service {
  fetchProductPage : host -> string -> io string;
  extractProductData : host -> string -> string -> string -> io json
}.

End Host.

(* ================================================================== *)
(** * src/unnamed/part_000 *)

Module Part000.

Import Js Regex Patterns Json Host.

(** [cleanHtml] *)
Definition cleanHtml (html : string) : string :=
  replace_all blanks " "
    (replace_all comment ""
      (replace_all (block_of "svg") ""
        (replace_all (block_of "style") ""
          (replace_all (block_of "script") "" html)))).

(** [(html.match(p) || [])[1]] *)
Definition first_group (p : pattern) (html : string) : option string :=
  match exec p html with
  | Some m => group 1 m
  | None => None
  end.

(** [[a, b, ...].filter(Boolean)] *)
Fixpoint filter_Boolean (l : list (option string)) : list string :=
  match l with
  | [] => []
  | Some s :: t => if truthy s then s :: filter_Boolean t else filter_Boolean t
  | None :: t => filter_Boolean t
  end.

(** [option.replace(/<[^>]*>/g, '').trim()] *)
Definition visible_text (option : string) : string :=
  trim (replace_all any_tag "" option).

(** The last filter of both option extractors. *)
Definition keep (s : string) : bool :=
  truthy s && (length s <? 20)%nat && negb (includes s "select")
  && negb (includes s "choose").

Definition sizeContainers (html : string) : list string :=
  filter_Boolean
    [first_group (container "select" size_key) html;
     first_group (container "div" size_key) html;
     first_group (container "ul" size_key) html].

Definition size_items (container : string) : list string :=
  (match_all_or_empty option_item container
   ++ match_all_or_empty li_item container
   ++ match_all_or_empty button_item container
   ++ match_all_or_empty a_item container
   ++ match_all_or_empty div_option_item container)%list.

(** The body of the inner loop of [extractSizeOptions]; [sizeOptions] is the
    array the loop pushes to. *)
Definition size_of_item (includeUnavailable : bool) (sizeOptions : list string)
    (option : string) : result (list string) :=
  if negb includeUnavailable && test unavailable option then Ok sizeOptions
  else
    let text := visible_text option in
    if negb (truthy text) || includes text "Select" || includes text "Choose"
    then Ok sizeOptions
    else
      let sizeOptions := push sizeOptions text in
      match exec value_attr option with
      | Some valueMatch =>
          if truthy_opt (group 1 valueMatch) then
            v <- receiver "includes" (group 1 valueMatch) ;;
            if negb (test all_digits v) && negb (includes v "select")
               && (length v <? 10)%nat
            then Ok (push sizeOptions v)
            else Ok sizeOptions
          else Ok sizeOptions
      | None => Ok sizeOptions
      end.

Definition size_of_container (includeUnavailable : bool)
    (sizeOptions : list string) (container : string) : result (list string) :=
  if negb (truthy container) then Ok sizeOptions
  else for_of (size_items container) (size_of_item includeUnavailable)
         sizeOptions.

(** [extractSizeOptions] *)
Definition extractSizeOptions (html : string) (includeUnavailable : bool)
    : result (list string) :=
  sizeOptions <- for_of (sizeContainers html)
                   (size_of_container includeUnavailable) [] ;;
  Ok (filter keep (new_Set sizeOptions)).

Definition colorContainers (html : string) : list string :=
  filter_Boolean
    [first_group (container "select" color_key) html;
     first_group (container "div" color_key) html;
     first_group (container "ul" color_key) html;
     first_group (container "div" (lits "swatch")) html].

Definition colorKeywords : list string :=
  ["red"; "blue"; "green"; "yellow"; "orange"; "purple"; "pink"; "brown";
   "black"; "white"; "gray"; "grey"; "navy"; "teal"; "gold"; "silver";
   "beige"; "burgundy"; "turquoise"; "lavender"; "cream"; "khaki"; "olive"].

(** [colorKeywords.some(color => s.toLowerCase().includes(color))] *)
Definition names_a_color (s : string) : bool :=
  existsb (fun color => includes (toLowerCase s) color) colorKeywords.

(** [colorKeywords.find(color => s.toLowerCase().includes(color))] *)
Definition color_named_by (s : string) : option string :=
  find (fun color => includes (toLowerCase s) color) colorKeywords.

Definition color_items (container : string) : list string :=
  (match_all_or_empty option_item container
   ++ match_all_or_empty li_item container
   ++ match_all_or_empty button_item container
   ++ match_all_or_empty a_item container
   ++ match_all_or_empty div_swatch_item container
   ++ match_all_or_empty span_color_item container)%list.

(** The splitter of [s.split(/\s+/)]: [cur] is the piece being read and
    [skip] counts the characters of the separator still to pass. *)
Fixpoint split_scan (p : pattern) (before : option ascii) (s : string)
    (cur : string) (skip : nat) : list string :=
  match s with
  | "" => [cur]
  | String c t =>
      match skip with
      | S n => split_scan p (Some c) t cur n
      | 0 =>
          match match_here p before s with
          | Some e =>
              match length s - length (rest e) with
              | 0 =>
                  match cur with
                  | "" => split_scan p (Some c) t (String c "") 0
                  | _ => cur :: split_scan p (Some c) t (String c "") 0
                  end
              | S n => cur :: split_scan p (Some c) t "" n
              end
          | None => split_scan p (Some c) t (cur ++ String c "") 0
          end
      end
  end.

(** [s.split(p)] *)
Definition split (p : pattern) (s : string) : list string :=
  split_scan p None s "" 0.

(** The loop over the class names of an item. *)
Definition color_of_class (colorOptions : list string) (cls : string)
    : result (list string) :=
  if names_a_color cls then
    match color_named_by cls with
    | Some colorName =>
        if truthy colorName && negb (existsb (String.eqb colorName) colorOptions)
        then Ok (push colorOptions colorName)
        else Ok colorOptions
    | None => Ok colorOptions
    end
  else Ok colorOptions.

(** The body of the inner loop of [extractColorOptions]. *)
Definition color_of_item (colorOptions : list string) (option : string)
    : result (list string) :=
  if test unavailable option then Ok colorOptions
  else
    let text := visible_text option in
    let colorOptions :=
      if truthy text && negb (includes text "Select")
         && negb (includes text "Choose")
         && (names_a_color text || (length text <? 15)%nat)
      then push colorOptions text else colorOptions in
    colorOptions <-
      match exec style_background option with
      | Some styleMatch =>
          if truthy_opt (group 1 styleMatch) then
            v <- receiver "trim" (group 1 styleMatch) ;;
            Ok (push colorOptions (trim v))
          else Ok colorOptions
      | None => Ok colorOptions
      end ;;
    colorOptions <-
      match exec class_attr option with
      | Some classMatch =>
          if truthy_opt (group 1 classMatch) then
            v <- receiver "split" (group 1 classMatch) ;;
            for_of (split spaces v) color_of_class colorOptions
          else Ok colorOptions
      | None => Ok colorOptions
      end ;;
    match exec data_color_attr option with
    | Some dataColorMatch =>
        match group 1 dataColorMatch with
        | Some v => if truthy v then Ok (push colorOptions v) else Ok colorOptions
        | None => Ok colorOptions
        end
    | None => Ok colorOptions
    end.

Definition color_of_container (colorOptions : list string)
    (container : string) : result (list string) :=
  if negb (truthy container) then Ok colorOptions
  else for_of (color_items container) color_of_item colorOptions.

(** [extractColorOptions] *)
Definition extractColorOptions (html : string) : result (list string) :=
  colorOptions <- for_of (colorContainers html) color_of_container [] ;;
  Ok (filter keep (new_Set colorOptions)).

(** [a || b] where [a] may be [undefined] *)
Definition or_else (a : option string) (b : string) : string :=
  match a with
  | Some s => if truthy s then s else b
  | None => b
  end.

(** [s.replace(/<[^>]*>/g, ' ').trim()] *)
Definition spaced_text (s : string) : string :=
  trim (replace_all any_tag " " s).

Definition titleMatch (html : string) : option match_array :=
  exec h1 html ||| exec title html ||| exec div_product_title html.

Definition priceMatch (html : string) : option match_array :=
  exec price_span html ||| exec product_price_div html ||| exec dollars html.

Definition descMatch (html : string) : option match_array :=
  exec description_div html ||| exec meta_description html.

Definition catMatch (html : string) : option match_array :=
  exec breadcrumb_nav html ||| exec meta_category html.

(** The lines [extractProductInfo] pushes to [productInfo], in order. *)
Definition title_line (html : string) : result (list string) :=
  match titleMatch html with
  | Some m =>
      t <- receiver "trim" (group 1 m) ;;
      Ok ["PRODUCT TITLE: " ++ trim t]
  | None => Ok []
  end.

Definition price_line (html : string) : result (list string) :=
  match priceMatch html with
  | Some m =>
      Ok ["PRODUCT PRICE: " ++ or_else (group 1 m) (whole m)]
  | None => Ok []
  end.

Definition size_line (html : string) : result (list string) :=
  availableSizes <- extractSizeOptions html false ;;
  if (0 <? List.length availableSizes)%nat
  then Ok ["AVAILABLE SIZE OPTIONS: " ++ join ", " availableSizes]
  else Ok [].

Definition color_line (html : string) : result (list string) :=
  availableColors <- extractColorOptions html ;;
  if (0 <? List.length availableColors)%nat
  then Ok ["AVAILABLE COLOR OPTIONS: " ++ join ", " availableColors]
  else Ok [].

Definition description_line (html : string) : result (list string) :=
  match descMatch html with
  | Some m =>
      d <- receiver "replace" (group 1 m) ;;
      Ok ["PRODUCT DESCRIPTION: " ++ substring0 200 (spaced_text d) ++ "..."]
  | None => Ok []
  end.

Definition category_line (html : string) : result (list string) :=
  match catMatch html with
  | Some m =>
      c <- receiver "replace" (group 1 m) ;;
      Ok ["PRODUCT CATEGORY: " ++ spaced_text c]
  | None => Ok []
  end.

Definition productInfo (html : string) : result (list string) :=
  t <- title_line html ;;
  p <- price_line html ;;
  s <- size_line html ;;
  c <- color_line html ;;
  d <- description_line html ;;
  g <- category_line html ;;
  Ok (t ++ p ++ s ++ c ++ d ++ g)%list.

Definition structured (url : string) (info : list string) (html : string)
    : string :=
  nl ++ "PRODUCT URL: " ++ url ++ nl ++ join nl info ++ nl ++ nl
  ++ "ADDITIONAL HTML SNIPPETS:" ++ nl ++ substring0 2000 html ++ nl ++ "    ".

Definition raw (url html : string) : string :=
  nl ++ "PRODUCT URL: " ++ url ++ nl ++ "RAW HTML:" ++ nl
  ++ substring0 4000 html ++ nl ++ "  ".

(** [extractProductInfo] *)
Definition extractProductInfo (html url : string) : result string :=
  info <- productInfo html ;;
  if (2 <=? List.length info)%nat then Ok (structured url info html)
  else Ok (raw url html).

(** [fetchProductPage] *)
Definition fetchProductPage (h : host) (url : string) : io string :=
  io_try (get_page h url)
    (fun message => lift (Throw ("Failed to fetch product page: " ++ message))).

Definition system_prompt : string :=
  "You are a product data extraction expert. Extract ONLY AVAILABLE product attributes from the HTML.
Your output must be ONLY valid JSON without any explanations.".

Definition user_prompt (url processedHtml : string) : string :=
  dq "Extract only AVAILABLE product information from this HTML.

Use this exact JSON structure:
{
  `url`: `"
  ++ url
  ++ dq "`,
  `title`: `Product title`,
  `category`: `Product category (use 'Unknown' only if absolutely no category information is found)`,
  `attributes`: {
    `colorOptions`: [`ONLY available color options`],
    `sizeOptions`: [`ONLY available size options`]
    // Include other available product attributes
  },
  `rawPrice`: 0 // Numeric price without currency symbols
}

HTML Content:
"
  ++ processedHtml.

Definition request_for (url processedHtml : string) : request :=
  Request "gpt-4" system_prompt (user_prompt url processedHtml) None 1000
    (JNumber 1 (-1)).

(** The record returned when no JSON can be read from the answer. *)
Definition not_extracted (url : string) : json :=
  JObject
    [("url", JString url);
     ("title", JString "Product Title Not Extracted");
     ("category", JString "Unknown");
     ("attributes",
      JObject [("colorOptions", JArray []); ("sizeOptions", JArray [])]);
     ("rawPrice", JNumber 0 0)].

(** The record returned by the outer [catch]. *)
Definition failed (url message : string) : json :=
  JObject
    [("url", JString url);
     ("title", JString ("Error: " ++ substring0 30 message));
     ("category", JString "Unknown");
     ("attributes",
      JObject [("colorOptions", JArray []); ("sizeOptions", JArray [])]);
     ("rawPrice", JNumber 0 0)].

(** The inner [try]: [JSON.parse(jsonMatch[0])], its error swallowed. *)
Definition parse_span (h : host) (content : string) : result (option json) :=
  match exec braces content with
  | Some jsonMatch =>
      try_catch (v <- JSON_parse h (whole jsonMatch) ;; Ok (Some v))
        (fun _ => Ok None)
  | None => Ok None
  end.

(** From [// Parse the JSON response] to the end of the outer [try]. *)
Definition parse_content (h : host) (url content : string) : result json :=
  try_catch (JSON_parse h content)
    (fun _ =>
       recovered <- parse_span h content ;;
       match recovered with
       | Some v => Ok v
       | None => Ok (not_extracted url)
       end).

(** [extractProductData] *)
Definition extractProductData (h : host) (html url apiKey : string) : io json :=
  io_try
    (processedHtml <~ lift (extractProductInfo (cleanHtml html) url) ;;
     response <~ create h apiKey (request_for url processedHtml) ;;
     content <~ lift (c <- first_content response ;; logged c) ;;
     lift (parse_content h url content))
    (fun message => ret (failed url message)).

Definition exports : service := Service fetchProductPage extractProductData.

End Part000.

(* ================================================================== *)
(** * src/productService.js *)

Module ProductService.

Import Js Regex Patterns Json Host.

(** [fetchProductPage] *)
Definition fetchProductPage (h : host) (url : string) : io string :=
  io_try (get_page h url)
    (fun message => lift (Throw ("Failed to fetch product page: " ++ message))).

(** [if (m) keyElements.push(...m)] *)
Definition push_all (keyElements : list string) (m : option (list string))
    : list string :=
  match m with
  | Some l => (keyElements ++ l)%list
  | None => keyElements
  end.

(** [simplifyHtml] *)
Definition simplifyHtml (html : string) : string :=
  let simplified :=
    replace_all blanks " "
      (replace_all comment ""
        (replace_all (block_of "svg") ""
          (replace_all (block_of "style") ""
            (replace_all (block_of "script") "" html)))) in
  let keyElements : list string := [] in
  let keyElements :=
    match exec title simplified with
    | Some titleMatch => push keyElements (whole titleMatch)
    | None => keyElements
    end in
  let keyElements := push_all keyElements (match_all h1_all simplified) in
  let keyElements :=
    push_all keyElements
      (match_all (section_of (Alt (lits "price") (lits "cost"))) simplified) in
  let keyElements :=
    push_all keyElements
      (option_map (firstn 2)
        (match_all
          (section_of
            (Alt (lits "description")
              (Alt (lits "details") (lits "features")))) simplified)) in
  if (3 <=? List.length keyElements)%nat
  then substring0 3000 (join nl keyElements)
  else substring0 3000 simplified.

Definition system_prompt : string :=
  "You are a JSON-only product information extractor. 
          You MUST ALWAYS respond with ONLY a valid JSON object and nothing else.
          Do not include any explanation, preamble, or commentary.".

Definition user_prompt (url simplifiedHtml : string) : string :=
  "Extract basic product info from this HTML for: "
  ++ url
  ++ dq "
          
          Respond with ONLY this JSON structure:
          {
            `url`: `"
  ++ url
  ++ dq "`,
            `title`: `Product title`,
            `category`: `Product category if found, otherwise best guess`,
            `attributes`: {
              `colorOptions`: [`array of colors if found`],
              `sizeOptions`: [`array of sizes if found`],
              // other attributes you can find
            },
            `rawPrice`: 29.99 // numeric price without currency symbol
          }
          
          HTML: "
  ++ simplifiedHtml.

Definition request_for (url simplifiedHtml : string) : request :=
  Request "gpt-4" system_prompt (user_prompt url simplifiedHtml)
    (Some "json_object") 1000 (JNumber 0 0).

(** The record returned when no JSON can be read from the answer. *)
Definition not_extracted (url : string) : json :=
  JObject
    [("url", JString url);
     ("title", JString "Product Title Not Extracted");
     ("category", JString "Unknown");
     ("attributes", JObject []);
     ("rawPrice", JNumber 0 0)].

(** The record returned by the outer [catch]. *)
Definition failed (url message : string) : json :=
  JObject
    [("url", JString url);
     ("title", JString ("Error: " ++ substring0 30 message));
     ("category", JString "Error");
     ("attributes", JObject []);
     ("rawPrice", JNumber 0 0)].

(** The inner [try]: [JSON.parse(jsonMatch[0])], its error swallowed. *)
Definition parse_span (h : host) (content : string) : result (option json) :=
  match exec braces content with
  | Some jsonMatch =>
      try_catch (v <- JSON_parse h (whole jsonMatch) ;; Ok (Some v))
        (fun _ => Ok None)
  | None => Ok None
  end.

(** From [// Parse the JSON response] to the end of the outer [try]. *)
Definition parse_content (h : host) (url content : string) : result json :=
  try_catch (JSON_parse h content)
    (fun _ =>
       recovered <- parse_span h content ;;
       match recovered with
       | Some v => Ok v
       | None => Ok (not_extracted url)
       end).

(** [extractProductData] *)
Definition extractProductData (h : host) (html url apiKey : string) : io json :=
  io_try
    (response <~ create h apiKey (request_for url (simplifyHtml html)) ;;
     content <~ lift (c <- first_content response ;; logged c) ;;
     lift (parse_content h url content))
    (fun message => ret (failed url message)).

Definition exports : service := Service fetchProductPage extractProductData.

End ProductService.

(* ================================================================== *)
(** * src/server.js *)

Module Server.

Import Js Json Host.

(** The body of a request, as [express.json()] leaves it in [req.body]: an
    object whose fields [url] and [openaiApiKey] are each absent or a
    text. *)
Record body : Type := Body {
  url : option string;
  openaiApiKey : option string
}.

Record response : Type := Response {
  status : nat;
  payload : json
}.

Definition missing_parameters : response :=
  Response 400
    (JObject
      [("error",
        JString "Missing required parameters: url and openaiApiKey are required")]).

Definition failure (message : string) : response :=
  Response 500
    (JObject
      [("error", JString "Failed to process product URL");
       ("message", JString message)]).

(** The handler of [POST /parse-product]; [svc] is the module
    [./productService] it requires. *)
Definition parse_product (svc : service) (h : host) (req : body) : io response :=
  io_try
    (match url req, openaiApiKey req with
     | Some u, Some k =>
         if negb (truthy u) || negb (truthy k) then ret missing_parameters
         else
           html <~ fetchProductPage svc h u ;;
           productData <~ extractProductData svc h html u k ;;
           ret (Response 200 productData)
     | _, _ => ret missing_parameters
     end)
    (fun message => ret (failure message)).

(** The handler of [GET /]. *)
Definition health : response :=
  Response 200 (JObject [("status", JString "API is running")]).

End Server.

(* ================================================================== *)
(** * Vocabulary of the properties *)

Module Props.

Import Js Regex Patterns Json Host.

(** The groups every successful match of a pattern sets. *)
Fixpoint sets (n : nat) (r : regex) : bool :=
  match r with
  | Seq a b => sets n a || sets n b
  | Alt a b => sets n a && sets n b
  | Group m a => Nat.eqb n m || sets n a
  | _ => false
  end.

Definition captured (n : nat) (s : mstate) : Prop := lookup n (caps s) <> None.

(** What a continuation-passing matcher guarantees of the state it hands to
    its continuation. *)
Definition passes (P : mstate -> mstate -> Prop) (m : cont -> cont) : Prop :=
  forall k s e, m k s = Some e -> exists s', k s' = Some e /\ P s s'.

Definition keeps_captures (s s' : mstate) : Prop :=
  forall n, captured n s -> captured n s'.

(** What follows the last closing brace of a text. *)
Fixpoint after_last_close (s : string) : option string :=
  match s with
  | "" => None
  | String c t =>
      match after_last_close t with
      | Some r => Some r
      | None => if Ascii.eqb "}" c then Some t else None
      end
  end.

(** The span from the first opening brace that a closing brace follows to
    the last closing brace of the text. *)
Fixpoint brace_span (s : string) : option string :=
  match s with
  | "" => None
  | String c t =>
      if Ascii.eqb "{" c then
        match after_last_close t with
        | Some r => Some (substring 0 (length s - length r) s)
        | None => brace_span t
        end
      else brace_span t
  end.

(** A host whose page fetch and completion call have fixed outcomes. *)
Definition fixed_host (page : result string) (answer : result completion)
    : host :=
  HostOf strict_parse (fun _ _ => page) (fun _ _ => answer).

(** The answer with one choice of content [text]. *)
Definition says (text : string) : result completion :=
  Ok (Completion [Some text]).

Definition repeat_char (c : ascii) (n : nat) : string :=
  string_of_list_ascii (repeat c n).

(** What an item of a size container contributes to [sizeOptions]: its
    visible text and, under conditions, its [value] attribute. *)
Definition size_from_item (includeUnavailable : bool) (item c : string)
    : Prop :=
  negb includeUnavailable && test unavailable item = false
  /\ Part000.visible_text item <> ""
  /\ includes (Part000.visible_text item) "Select" = false
  /\ includes (Part000.visible_text item) "Choose" = false
  /\ (c = Part000.visible_text item
      \/ exists m, exec value_attr item = Some m /\ group 1 m = Some c
                   /\ c <> "" /\ test all_digits c = false
                   /\ includes c "select" = false /\ length c < 10).

Definition size_from (includeUnavailable : bool) (html c : string) : Prop :=
  exists container item,
    In container (Part000.sizeContainers html)
    /\ In item (Part000.size_items container)
    /\ size_from_item includeUnavailable item c.

(** What an item of a color container contributes to [colorOptions]. *)
Definition color_from_item (item c : string) : Prop :=
  test unavailable item = false
  /\ ((c = Part000.visible_text item /\ c <> ""
       /\ includes c "Select" = false /\ includes c "Choose" = false
       /\ (Part000.names_a_color c = true \/ length c < 15))
      \/ (exists m v, exec style_background item = Some m
                      /\ group 1 m = Some v /\ v <> "" /\ c = trim v)
      \/ (exists m v cls, exec class_attr item = Some m
                          /\ group 1 m = Some v /\ v <> ""
                          /\ In cls (Part000.split spaces v)
                          /\ Part000.color_named_by cls = Some c)
      \/ (exists m, exec data_color_attr item = Some m
                    /\ group 1 m = Some c /\ c <> "")).

Definition color_from (html c : string) : Prop :=
  exists container item,
    In container (Part000.colorContainers html)
    /\ In item (Part000.color_items container)
    /\ color_from_item item c.

(** A line of [productInfo]: absent, or one text that starts with the label
    of its field. *)
Definition line_of (label : string) (found : bool) (l : list string) : Prop :=
  if found then exists text, l = [label ++ text] else l = [].

Definition is_some {A : Type} (o : option A) : bool :=
  match o with Some _ => true | None => false end.

Definition some_option (r : result (list string)) : bool :=
  match r with Ok (_ :: _) => true | _ => false end.

(** Which of the six fields [extractProductInfo] finds in a markup: title,
    price, sizes, colors, description and category. *)
Definition found (html : string) : list bool :=
  [is_some (Part000.titleMatch html);
   is_some (Part000.priceMatch html);
   some_option (Part000.extractSizeOptions html false);
   some_option (Part000.extractColorOptions html);
   is_some (Part000.descMatch html);
   is_some (Part000.catMatch html)].

Definition count_found (html : string) : nat :=
  List.length (filter (fun b : bool => b) (found html)).

(** The parsing policy in the words of the specification: the strict parse
    of the whole text; on failure the parse of the span between braces; on
    failure the static record [fallback]. *)
Definition parsing_policy (parse : string -> result json) (fallback : json)
    (content : string) : json :=
  match parse content with
  | Ok v => v
  | Throw _ =>
      match brace_span content with
      | Some span =>
          match parse span with
          | Ok v => v
          | Throw _ => fallback
          end
      | None => fallback
      end
  end.

(** The errors of the completion stage: the call is rejected (no network,
    bad credential, rate limit), or the answer is malformed (no choice, or a
    [null] content). *)
Inductive stage_throws : result completion -> string -> Prop :=
| rejected (message : string) : stage_throws (Throw message) message
| no_choice :
    stage_throws (Ok (Completion []))
      "Cannot read properties of undefined (reading 'message')"
| null_content (others : list (option string)) :
    stage_throws (Ok (Completion (None :: others)))
      "Cannot read properties of null (reading 'substring')".

(** The text of an answer, as both versions of [extractProductData] read
    it. *)
Definition content_of (outcome : result completion) : result string :=
  r <- outcome ;; c <- first_content r ;; logged c.

(** What [extractProductData] returns for an outcome of the completion
    call, given the two records of the version. *)
Definition record_for (parse : string -> result json)
    (failed : string -> json) (not_extracted : json)
    (outcome : result completion) : json :=
  match content_of outcome with
  | Ok content => parsing_policy parse not_extracted content
  | Throw message => failed message
  end.

(** The labels of the lines of [productInfo]. *)
Definition labels : list string :=
  ["PRODUCT TITLE: "; "PRODUCT PRICE: "; "AVAILABLE SIZE OPTIONS: ";
   "AVAILABLE COLOR OPTIONS: "; "PRODUCT DESCRIPTION: "; "PRODUCT CATEGORY: "].

Definition labeled (line : string) : Prop :=
  exists label, In label labels /\ prefix label line = true.

(** A markup with a title of [n] characters and a price. *)
Definition long_title (n : nat) : string :=
  "<h1>" ++ repeat_char "a" n ++ "</h1>$1".

End Props.

(* ================================================================== *)
(** * Vocabulary of the further properties *)

Module More.

Import Js Regex Patterns Json Host.

(** The least number of characters a match of a pattern reads. *)
Fixpoint min_len (r : regex) : nat :=
  match r with
  | Lit _ | Cls _ => 1
  | Seq a b => min_len a + min_len b
  | Alt a b => Nat.min (min_len a) (min_len b)
  | Group _ a => min_len a
  | _ => 0
  end.

(** Whether every match of a pattern goes through the literal [c]. *)
Fixpoint reads (c : ascii) (r : regex) : bool :=
  match r with
  | Lit p => Ascii.eqb p c
  | Seq a b => reads c a || reads c b
  | Alt a b => reads c a && reads c b
  | Group _ a => reads c a
  | _ => false
  end.

(** Whether a text has a character that passes [ok]. *)
Fixpoint has (ok : ascii -> bool) (s : string) : bool :=
  match s with
  | "" => false
  | String x t => ok x || has ok t
  end.

(** What a match of [r] under the flag [i] read between two states: a text
    [pre] of at least [min_len r] characters, with a character that matches
    the literal [c] when every match of [r] goes through it. *)
Definition read (i : bool) (c : ascii) (r : regex) (s s' : mstate) : Prop :=
  exists pre,
    rest s = pre ++ rest s'
    /\ min_len r <= length pre
    /\ (reads c r = true -> has (lit_ok i c) pre = true).

(** A text without two white-space characters in a row. *)
Fixpoint single_spaced (s : string) : bool :=
  match s with
  | "" => true
  | String c t =>
      match t with
      | "" => true
      | String d _ => negb (is_space c && is_space d) && single_spaced t
      end
  end.


(** The character before the rest of a text once its leading white space
    is read, [p] being the one before the text. *)
Fixpoint last_space (p : option ascii) (s : string) : option ascii :=
  match s with
  | "" => p
  | String c t => if is_space c then last_space (Some c) t else p
  end.

(** Whether a text starts with white space. *)
Definition head_space (s : string) : bool :=
  match s with
  | "" => false
  | String c _ => is_space c
  end.


End More.

(* ================================================================== *)
(** * Lists, sets and loops *)

Import Js Regex Patterns Json Host Props More.

Lemma existsb_eqb_In (x : string) (l : list string) :
  existsb (String.eqb x) l = true <-> In x l.
Proof.
  rewrite existsb_exists. split.
  - intros [y [Hy Heq]]. apply String.eqb_eq in Heq. now subst.
  - intros H. exists x. split; [assumption | apply String.eqb_refl].
Qed.

Lemma new_Set_from_spec (l seen : list string) :
  NoDup (new_Set_from seen l)
  /\ (forall x, In x (new_Set_from seen l) <-> In x l /\ ~ In x seen).
Proof.
  revert seen. induction l as [| x t IH]; intros seen; simpl.
  - split; [constructor | intros y; tauto].
  - destruct (existsb (String.eqb x) seen) eqn:E.
    + apply existsb_eqb_In in E. destruct (IH seen) as [Hn Hi].
      split; [assumption |]. intros y. rewrite Hi. split.
      * intros [H1 H2]. auto.
      * intros [[-> | H1] H2]; [contradiction | auto].
    + assert (Hx : ~ In x seen).
      { intros H. apply existsb_eqb_In in H. congruence. }
      destruct (IH (x :: seen)) as [Hn Hi]. split.
      * constructor; [| assumption]. rewrite Hi. simpl. tauto.
      * intros y. simpl. rewrite Hi. simpl. split.
        -- intros [-> | [H1 H2]]; [auto |]. split; [auto | tauto].
        -- intros [[-> | H1] H2]; [auto |].
           destruct (string_dec x y) as [-> | Hne]; [auto |].
           right. split; [assumption |]. intros [H3 | H3]; auto.
Qed.

Lemma new_Set_NoDup (l : list string) : NoDup (new_Set l).
Proof. apply new_Set_from_spec. Qed.

Lemma new_Set_In (l : list string) (x : string) : In x (new_Set l) <-> In x l.
Proof.
  unfold new_Set. rewrite (proj2 (new_Set_from_spec l [])). simpl. tauto.
Qed.

Lemma filter_NoDup {A : Type} (f : A -> bool) (l : list A) :
  NoDup l -> NoDup (filter f l).
Proof.
  induction 1 as [| x l Hx Hl IH]; simpl; [constructor |].
  destruct (f x); [| assumption].
  constructor; [| assumption]. rewrite filter_In. tauto.
Qed.

Lemma keep_spec (s : string) :
  Part000.keep s = true -> s <> "" /\ length s < 20.
Proof.
  unfold Part000.keep. intros H.
  repeat (apply andb_prop in H; destruct H as [H ?]).
  split.
  - intros ->. discriminate.
  - now apply Nat.ltb_lt.
Qed.

(* ================================================================== *)
(** * The matcher *)

Section Matcher.

Variable i : bool.

Lemma star_loop_keeps (g : bool) (body : cont -> cont) (k : cont) :
  passes keeps_captures body ->
  forall fuel s e, star_loop g body k fuel s = Some e ->
  exists s', k s' = Some e /\ keeps_captures s s'.
Proof.
  intros Hbody. induction fuel as [| f IH]; simpl; intros s e H.
  - exists s. split; [assumption | now intros n Hn].
  - assert (Hagain : forall e',
      body (fun s' => if Nat.ltb (length (rest s')) (length (rest s))
                      then star_loop g body k f s' else None) s = Some e' ->
      exists s', k s' = Some e' /\ keeps_captures s s').
    { intros e' He'. apply Hbody in He'. destruct He' as [s1 [H1 K1]].
      destruct (Nat.ltb _ _); [| discriminate].
      apply IH in H1. destruct H1 as [s2 [H2 K2]].
      exists s2. split; [assumption |]. intros n Hn. auto. }
    destruct g.
    + destruct (body _ s) as [e' |] eqn:E.
      * inversion H; subst. now apply Hagain.
      * exists s. split; [assumption | now intros n Hn].
    + destruct (k s) as [e' |] eqn:E.
      * inversion H; subst. exists s. split; [assumption | now intros n Hn].
      * now apply Hagain.
Qed.

Lemma eat_keeps (ok : ascii -> bool) : passes keeps_captures (eat ok).
Proof.
  intros k s e H. unfold eat in H.
  destruct (rest s) as [| c t]; [discriminate |].
  destruct (ok c); [| discriminate].
  eexists. split; [exact H |]. now intros n Hn.
Qed.

(** A match keeps the captures it started with and sets the groups it has
    to go through. *)
Lemma rmatch_captures (r : regex) :
  passes (fun s s' => keeps_captures s s'
                      /\ forall n, sets n r = true -> captured n s')
    (rmatch i r).
Proof.
  induction r as [| p | cs | a IHa b IHb | a IHa b IHb | g a IHa | m a IHa
                 | a IHa | | |]; intros k s e H; cbn [rmatch] in H.
  - exists s. repeat split; [assumption | now intros n Hn | discriminate].
  - apply eat_keeps in H. destruct H as [s' [H K]].
    exists s'. repeat split; [assumption | assumption | discriminate].
  - apply eat_keeps in H. destruct H as [s' [H K]].
    exists s'. repeat split; [assumption | assumption | discriminate].
  - apply IHa in H. destruct H as [s1 [H1 [K1 S1]]].
    apply IHb in H1. destruct H1 as [s2 [H2 [K2 S2]]].
    exists s2. split; [assumption |]. split.
    + intros n Hn. auto.
    + intros n Hn. simpl in Hn. apply orb_prop in Hn. destruct Hn; auto.
  - destruct (rmatch i a k s) as [e' |] eqn:E.
    + inversion H; subst. apply IHa in E. destruct E as [s1 [H1 [K1 S1]]].
      exists s1. split; [assumption |]. split; [assumption |].
      intros n Hn. simpl in Hn. apply andb_prop in Hn. now apply S1.
    + apply IHb in H. destruct H as [s1 [H1 [K1 S1]]].
      exists s1. split; [assumption |]. split; [assumption |].
      intros n Hn. simpl in Hn. apply andb_prop in Hn. now apply S1.
  - apply star_loop_keeps in H.
    + destruct H as [s' [H K]]. exists s'.
      repeat split; [assumption | assumption | discriminate].
    + intros k' s0 e0 H0. apply IHa in H0. destruct H0 as [s1 [H1 [K1 _]]].
      now exists s1.
  - apply IHa in H. destruct H as [s1 [H1 [K1 S1]]].
    eexists. split; [exact H1 |]. split.
    + intros n Hn. apply K1 in Hn. unfold captured in *. simpl.
      destruct (Nat.eqb n m); [discriminate | assumption].
    + intros n Hn. simpl in Hn. unfold captured. simpl.
      destruct (Nat.eqb n m) eqn:E; [discriminate |].
      simpl in Hn. now apply S1.
  - destruct (rmatch i a Some s); [discriminate |].
    exists s. repeat split; [assumption | now intros n Hn | discriminate].
  - destruct (xorb _ _); [| discriminate].
    exists s. repeat split; [assumption | now intros n Hn | discriminate].
  - destruct (prev s); [discriminate |].
    exists s. repeat split; [assumption | now intros n Hn | discriminate].
  - destruct (rest s); [| discriminate].
    exists s. repeat split; [assumption | now intros n Hn | discriminate].
Qed.

(** The matcher looks at its continuation only through its values. *)
Lemma star_loop_ext (g : bool) (body : cont -> cont) :
  (forall k1 k2 s, (forall s', k1 s' = k2 s') -> body k1 s = body k2 s) ->
  forall fuel k1 k2 s,
  (forall s', k1 s' = k2 s') ->
  star_loop g body k1 fuel s = star_loop g body k2 fuel s.
Proof.
  intros Hbody. induction fuel as [| f IH]; intros k1 k2 s Hk; simpl.
  - apply Hk.
  - rewrite (Hk s).
    rewrite (Hbody
      (fun s' => if Nat.ltb (length (rest s')) (length (rest s))
                 then star_loop g body k1 f s' else None)
      (fun s' => if Nat.ltb (length (rest s')) (length (rest s))
                 then star_loop g body k2 f s' else None) s);
      [reflexivity |].
    intros s'. destruct (Nat.ltb _ _); [| reflexivity]. now apply IH.
Qed.

Lemma rmatch_ext (r : regex) :
  forall k1 k2 s, (forall s', k1 s' = k2 s') ->
  rmatch i r k1 s = rmatch i r k2 s.
Proof.
  induction r as [| p | cs | a IHa b IHb | a IHa b IHb | g a IHa | m a IHa
                 | a IHa | | |]; intros k1 k2 s Hk; cbn [rmatch];
    try (unfold eat; rewrite ?Hk; destruct (rest s); try reflexivity;
         match goal with
         | |- context [if ?c then _ else _] => destruct c
         end; rewrite ?Hk; reflexivity).
  - apply IHa. intros s'. now apply IHb.
  - rewrite (IHa k1 k2 s Hk), (IHb k1 k2 s Hk). reflexivity.
  - now apply star_loop_ext.
  - apply IHa. intros s'. apply Hk.
Qed.

(** The fuel of a star plays no part: any amount above the length of the
    input gives the same match. *)
Lemma star_loop_fuel (g : bool) (a : regex) (k : cont) :
  forall f1 f2 s,
  length (rest s) < f1 -> length (rest s) < f2 ->
  star_loop g (rmatch i a) k f1 s = star_loop g (rmatch i a) k f2 s.
Proof.
  induction f1 as [| f1 IH]; intros f2 s H1 H2; [inversion H1 |].
  destruct f2 as [| f2]; [inversion H2 |]. simpl.
  rewrite (rmatch_ext a
    (fun s' => if Nat.ltb (length (rest s')) (length (rest s))
               then star_loop g (rmatch i a) k f1 s' else None)
    (fun s' => if Nat.ltb (length (rest s')) (length (rest s))
               then star_loop g (rmatch i a) k f2 s' else None) s);
    [reflexivity |].
  intros s'. destruct (Nat.ltb _ _) eqn:E; [| reflexivity].
  apply Nat.ltb_lt in E. apply IH; lia.
Qed.

End Matcher.

(** [m[n]] is defined for every group the pattern has to go through. *)
Lemma search_group (p : pattern) (n : nat) :
  sets n (body p) = true ->
  forall s before idx m, search p before s idx = Some m ->
  exists g, lookup n (groups m) = Some g.
Proof.
  intros Hn s. induction s as [| c t IH]; intros before idx m H; simpl in H.
  - destruct (match_here p before "") as [e |] eqn:E; [| discriminate].
    inversion H; subst. simpl. apply rmatch_captures in E.
    destruct E as [s' [H1 [_ S1]]]. inversion H1; subst.
    destruct (lookup n (caps e)) eqn:L; [now eexists |].
    now apply S1 in Hn.
  - destruct (match_here p before (String c t)) as [e |] eqn:E.
    + inversion H; subst. simpl. apply rmatch_captures in E.
      destruct E as [s' [H1 [_ S1]]]. inversion H1; subst.
      destruct (lookup n (caps e)) eqn:L; [now eexists |].
      now apply S1 in Hn.
    + eapply IH. exact H.
Qed.

Lemma exec_group1 (p : pattern) (s : string) (m : match_array) :
  sets 1 (body p) = true -> exec p s = Some m ->
  exists g, group 1 m = Some g.
Proof.
  intros Hn H. unfold exec in H. simpl.
  eapply search_group; eassumption.
Qed.

(* ================================================================== *)
(** * The option extractors *)

(** A loop that only adds to its array: what it adds. *)
Lemma for_of_collect {A : Type} (R : A -> string -> Prop) (l : list A)
    (f : list string -> A -> result (list string)) :
  (forall acc x, exists acc',
      f acc x = Ok acc' /\ forall c, In c acc' <-> In c acc \/ R x c) ->
  forall acc, exists r,
    for_of l f acc = Ok r
    /\ forall c, In c r <-> In c acc \/ exists x, In x l /\ R x c.
Proof.
  intros Hf. induction l as [| x t IH]; simpl; intros acc.
  - exists acc. split; [reflexivity |]. intros c. split; [tauto |].
    intros [H | [x [[] _]]]. assumption.
  - destruct (Hf acc x) as [acc' [-> Hacc']]. simpl.
    destruct (IH acc') as [r [-> Hr]]. exists r. split; [reflexivity |].
    intros c. rewrite Hr, Hacc'. split.
    + intros [[H | H] | [y [Hy H]]]; [now left | right | right].
      * exists x. split; [now left | assumption].
      * exists y. split; [now right | assumption].
    + intros [H | [y [[<- | Hy] H]]]; [now left; left | now left; right |].
      right. now exists y.
Qed.

Lemma truthy_true (s : string) : truthy s = true <-> s <> "".
Proof. destruct s; simpl; split; congruence. Qed.

Lemma truthy_false (s : string) : truthy s = false <-> s = "".
Proof. destruct s; simpl; split; congruence. Qed.

Lemma In_push {A : Type} (l : list A) (x y : A) :
  In y (push l x) <-> In y l \/ y = x.
Proof.
  unfold push. rewrite in_app_iff. simpl. intuition congruence.
Qed.

Lemma filter_Boolean_truthy (l : list (option string)) (s : string) :
  In s (Part000.filter_Boolean l) -> truthy s = true.
Proof.
  induction l as [| [x |] t IH]; simpl; [tauto | | assumption].
  destruct (truthy x) eqn:E; [| assumption].
  intros [<- | H]; auto.
Qed.

Lemma size_of_item_spec (b : bool) (acc : list string) (item : string) :
  exists acc',
    Part000.size_of_item b acc item = Ok acc'
    /\ forall c, In c acc' <-> In c acc \/ size_from_item b item c.
Proof.
  unfold Part000.size_of_item, size_from_item.
  destruct (negb b && test unavailable item) eqn:U.
  { exists acc. split; [reflexivity |]. intros c.
    split; [tauto | intros [H | [H _]]; [assumption | discriminate]]. }
  set (text := Part000.visible_text item).
  destruct (truthy text) eqn:T; cbn [negb orb].
  2:{ exists acc. split; [reflexivity |]. intros c.
      apply truthy_false in T.
      split; [tauto | intros [H | [_ [H _]]]; [assumption | contradiction]]. }
  apply truthy_true in T.
  destruct (includes text "Select") eqn:S1; cbn [orb].
  { exists acc. split; [reflexivity |]. intros c.
    split; [tauto | intros [H | [_ [_ [H _]]]]; [assumption | discriminate]]. }
  destruct (includes text "Choose") eqn:S2.
  { exists acc. split; [reflexivity |]. intros c.
    split; [tauto | intros [H | [_ [_ [_ [H _]]]]]; [assumption | discriminate]]. }
  destruct (exec value_attr item) as [m |] eqn:V.
  2:{ eexists. split; [reflexivity |]. intros c. rewrite In_push.
      split.
      - intros [H | ->]; [now left | right; repeat split; auto].
      - intros [H | [_ [_ [_ [_ [-> | [m [Hm _]]]]]]]];
          [now left | now right | discriminate]. }
  destruct (group 1 m) as [v |] eqn:G; cbn [truthy_opt].
  2:{ eexists. split; [reflexivity |]. intros c. rewrite In_push.
      split.
      - intros [H | ->]; [now left | right; repeat split; auto].
      - intros [H | [_ [_ [_ [_ [-> | [m' [Hm [Hg _]]]]]]]]];
          [now left | now right |].
        inversion Hm; subst. congruence. }
  destruct (truthy v) eqn:Tv; cbn [receiver bind].
  2:{ eexists. split; [reflexivity |]. intros c. rewrite In_push.
      apply truthy_false in Tv. split.
      - intros [H | ->]; [now left | right; repeat split; auto].
      - intros [H | [_ [_ [_ [_ [-> | [m' [Hm [Hg [Hc _]]]]]]]]]];
          [now left | now right |].
        inversion Hm; subst. congruence. }
  apply truthy_true in Tv.
  destruct (negb (test all_digits v) && negb (includes v "select")
            && (length v <? 10)%nat) eqn:C.
  - apply andb_prop in C. destruct C as [C C3].
    apply andb_prop in C. destruct C as [C1 C2].
    apply negb_true_iff in C1, C2. apply Nat.ltb_lt in C3.
    eexists. split; [reflexivity |]. intros c. rewrite !In_push. split.
    + intros [[H | ->] | ->]; [now left | right; repeat split; auto |].
      right. repeat split; auto. right. exists m. repeat split; auto.
    + intros [H | [_ [_ [_ [_ [-> | [m' [Hm [Hg _]]]]]]]]];
        [now left; left | now left; right |].
      inversion Hm; subst. right. congruence.
  - eexists. split; [reflexivity |]. intros c. rewrite In_push. split.
    + intros [H | ->]; [now left | right; repeat split; auto].
    + intros [H | [_ [_ [_ [_ [-> | [m' [Hm [Hg [_ [D [I L]]]]]]]]]]]];
        [now left | now right |].
      inversion Hm; subst. assert (c = v) by congruence. subst c.
      rewrite D, I in C. apply Nat.ltb_lt in L. rewrite L in C. discriminate.
Qed.

Lemma size_of_container_spec (b : bool) (acc : list string)
    (container : string) :
  exists acc',
    Part000.size_of_container b acc container = Ok acc'
    /\ forall c, In c acc' <->
         In c acc \/ (truthy container = true
                      /\ exists item, In item (Part000.size_items container)
                                      /\ size_from_item b item c).
Proof.
  unfold Part000.size_of_container.
  destruct (truthy container); cbn [negb].
  - destruct (for_of_collect (size_from_item b)
                (Part000.size_items container) (Part000.size_of_item b)
                (size_of_item_spec b) acc) as [r [-> Hr]].
    exists r. split; [reflexivity |]. intros c. rewrite Hr. tauto.
  - exists acc. split; [reflexivity |]. intros c.
    split; [tauto | intros [H | [H _]]; [assumption | discriminate]].
Qed.

(** [extractSizeOptions] never throws; what it returns has no duplicate,
    and holds exactly the contributions of the items of the containers that
    pass the last filter. *)
Lemma extractSizeOptions_spec (html : string) (b : bool) :
  exists sizes,
    Part000.extractSizeOptions html b = Ok sizes
    /\ NoDup sizes
    /\ forall c, In c sizes <-> Part000.keep c = true /\ size_from b html c.
Proof.
  unfold Part000.extractSizeOptions.
  destruct (for_of_collect
              (fun container c =>
                 truthy container = true
                 /\ exists item, In item (Part000.size_items container)
                                 /\ size_from_item b item c)
              (Part000.sizeContainers html) (Part000.size_of_container b)
              (size_of_container_spec b) []) as [r [-> Hr]].
  cbn [bind]. eexists. split; [reflexivity |]. split.
  - apply filter_NoDup, new_Set_NoDup.
  - intros c. rewrite filter_In, new_Set_In, Hr. unfold size_from. split.
    + intros [[[] | [container [Hc [_ [item [Hi H]]]]]] K].
      split; [assumption |]. now exists container, item.
    + intros [K [container [item [Hc [Hi H]]]]]. split; [| assumption].
      right. exists container. split; [assumption |]. split.
      * eapply filter_Boolean_truthy. exact Hc.
      * now exists item.
Qed.

Lemma colorKeywords_truthy (c : string) :
  In c Part000.colorKeywords -> c <> "".
Proof.
  intros H. apply truthy_true.
  assert (F : forallb truthy Part000.colorKeywords = true) by reflexivity.
  rewrite forallb_forall in F. now apply F.
Qed.

Lemma color_of_class_spec (acc : list string) (cls : string) :
  exists acc',
    Part000.color_of_class acc cls = Ok acc'
    /\ forall c, In c acc' <-> In c acc \/ Part000.color_named_by cls = Some c.
Proof.
  unfold Part000.color_of_class, Part000.names_a_color, Part000.color_named_by.
  set (p := fun color => includes (toLowerCase cls) color).
  destruct (existsb p Part000.colorKeywords) eqn:E.
  - destruct (find p Part000.colorKeywords) as [n |] eqn:F.
    + pose proof (find_some _ _ F) as [Hn _].
      apply colorKeywords_truthy, truthy_true in Hn. rewrite Hn. cbn [andb].
      destruct (existsb (String.eqb n) acc) eqn:X; cbn [negb].
      * apply existsb_eqb_In in X. exists acc. split; [reflexivity |].
        intros c. split; [tauto |]. intros [H | H]; [assumption |].
        now inversion H; subst.
      * eexists. split; [reflexivity |]. intros c. rewrite In_push. split.
        -- intros [H | ->]; auto.
        -- intros [H | H]; [now left | right; congruence].
    + exists acc. split; [reflexivity |]. intros c.
      split; [tauto | intros [H | H]; [assumption | discriminate]].
  - exists acc. split; [reflexivity |]. intros c.
    split; [tauto |]. intros [H | H]; [assumption |].
    apply find_some in H. destruct H as [H1 H2].
    assert (existsb p Part000.colorKeywords = true).
    { apply existsb_exists. now exists c. }
    congruence.
Qed.

Lemma color_of_item_spec (acc : list string) (item : string) :
  exists acc',
    Part000.color_of_item acc item = Ok acc'
    /\ forall c, In c acc' <-> In c acc \/ color_from_item item c.
Proof.
  unfold Part000.color_of_item, color_from_item.
  destruct (test unavailable item) eqn:U.
  { exists acc. split; [reflexivity |]. intros c.
    split; [tauto | intros [H | [H _]]; [assumption | discriminate]]. }
  set (text := Part000.visible_text item).
  set (R1 := fun c => c = text /\ c <> ""
     /\ includes c "Select" = false /\ includes c "Choose" = false
     /\ (Part000.names_a_color c = true \/ length c < 15)).
  set (R2 := fun c => exists m v, exec style_background item = Some m
     /\ group 1 m = Some v /\ v <> "" /\ c = trim v).
  set (R3 := fun c => exists m v cls, exec class_attr item = Some m
     /\ group 1 m = Some v /\ v <> "" /\ In cls (Part000.split spaces v)
     /\ Part000.color_named_by cls = Some c).
  set (R4 := fun c => exists m, exec data_color_attr item = Some m
     /\ group 1 m = Some c /\ c <> "").
  cbv zeta.
  match goal with
  | |- context [bind ?m1 _] =>
      match m1 with
      | context [if ?cond then push acc text else acc] =>
          set (acc1 := if cond then push acc text else acc);
          assert (H1 : forall c, In c acc1 <-> In c acc \/ R1 c)
      end
  end.
  { intros c. subst acc1 R1. cbv beta.
    destruct (truthy text) eqn:T; cbn [andb].
    2:{ apply truthy_false in T. split; [tauto |].
        intros [H | [-> [H _]]]; [assumption | contradiction]. }
    apply truthy_true in T.
    destruct (includes text "Select") eqn:S1; cbn [negb andb].
    { split; [tauto |]. intros [H | [-> [_ [H _]]]]; [assumption | congruence]. }
    destruct (includes text "Choose") eqn:S2; cbn [negb andb].
    { split; [tauto |].
      intros [H | [-> [_ [_ [H _]]]]]; [assumption | congruence]. }
    destruct (Part000.names_a_color text) eqn:N; cbn [orb].
    { rewrite In_push. split.
      - intros [H | ->]; [now left | right; repeat split; auto].
      - intros [H | [-> _]]; auto. }
    destruct (length text <? 15)%nat eqn:L.
    { apply Nat.ltb_lt in L. rewrite In_push. split.
      - intros [H | ->]; [now left | right; repeat split; auto].
      - intros [H | [-> _]]; auto. }
    apply Nat.ltb_ge in L. split; [tauto |].
    intros [H | [-> [_ [_ [_ [H | H]]]]]]; [assumption | congruence | lia]. }
  clearbody acc1.
  assert (H2 : exists acc2,
    match exec style_background item with
    | Some styleMatch =>
        if truthy_opt (group 1 styleMatch)
        then v <- receiver "trim" (group 1 styleMatch) ;; Ok (push acc1 (trim v))
        else Ok acc1
    | None => Ok acc1
    end = Ok acc2 /\ forall c, In c acc2 <-> In c acc1 \/ R2 c).
  { subst R2. destruct (exec style_background item) as [m |].
    2:{ exists acc1. split; [reflexivity |]. intros c.
        split; [tauto | intros [H | [m [v [H _]]]]; [assumption | discriminate]]. }
    destruct (group 1 m) as [v |] eqn:G; cbn [truthy_opt].
    2:{ exists acc1. split; [reflexivity |]. intros c. split; [tauto |].
        intros [H | [m' [v [Hm [Hg _]]]]]; [assumption |].
        inversion Hm; subst. congruence. }
    destruct (truthy v) eqn:T; cbn [receiver bind].
    - apply truthy_true in T. eexists. split; [reflexivity |]. intros c.
      rewrite In_push. split.
      + intros [H | ->]; [now left |]. right. now exists m, v.
      + intros [H | [m' [v' [Hm [Hg [_ ->]]]]]]; [now left |].
        inversion Hm; subst. right. congruence.
    - apply truthy_false in T. exists acc1. split; [reflexivity |].
      intros c. split; [tauto |].
      intros [H | [m' [v' [Hm [Hg [Hv _]]]]]]; [assumption |].
      inversion Hm; subst. congruence. }
  destruct H2 as [acc2 [-> H2]]. cbn [bind].
  assert (H3 : exists acc3,
    match exec class_attr item with
    | Some classMatch =>
        if truthy_opt (group 1 classMatch)
        then v <- receiver "split" (group 1 classMatch) ;;
             for_of (Part000.split spaces v) Part000.color_of_class acc2
        else Ok acc2
    | None => Ok acc2
    end = Ok acc3 /\ forall c, In c acc3 <-> In c acc2 \/ R3 c).
  { subst R3. destruct (exec class_attr item) as [m |].
    2:{ exists acc2. split; [reflexivity |]. intros c. split; [tauto |].
        intros [H | [m [v [cls [H _]]]]]; [assumption | discriminate]. }
    destruct (group 1 m) as [v |] eqn:G; cbn [truthy_opt].
    2:{ exists acc2. split; [reflexivity |]. intros c. split; [tauto |].
        intros [H | [m' [v [cls [Hm [Hg _]]]]]]; [assumption |].
        inversion Hm; subst. congruence. }
    destruct (truthy v) eqn:T; cbn [receiver bind].
    - apply truthy_true in T.
      destruct (for_of_collect
                  (fun cls c => Part000.color_named_by cls = Some c)
                  (Part000.split spaces v) Part000.color_of_class
                  color_of_class_spec acc2) as [r [-> Hr]].
      exists r. split; [reflexivity |]. intros c. rewrite Hr. split.
      + intros [H | [cls [Hc H]]]; [now left |]. right. now exists m, v, cls.
      + intros [H | [m' [v' [cls [Hm [Hg [_ [Hc H]]]]]]]]; [now left |].
        inversion Hm; subst. assert (v' = v) by congruence. subst v'.
        right. now exists cls.
    - apply truthy_false in T. exists acc2. split; [reflexivity |].
      intros c. split; [tauto |].
      intros [H | [m' [v' [cls [Hm [Hg [Hv _]]]]]]]; [assumption |].
      inversion Hm; subst. congruence. }
  destruct H3 as [acc3 [-> H3]]. cbn [bind].
  assert (H4 : exists acc4,
    match exec data_color_attr item with
    | Some dataColorMatch =>
        match group 1 dataColorMatch with
        | Some v => if truthy v then Ok (push acc3 v) else Ok acc3
        | None => Ok acc3
        end
    | None => Ok acc3
    end = Ok acc4 /\ forall c, In c acc4 <-> In c acc3 \/ R4 c).
  { subst R4. destruct (exec data_color_attr item) as [m |].
    2:{ exists acc3. split; [reflexivity |]. intros c. split; [tauto |].
        intros [H | [m [H _]]]; [assumption | discriminate]. }
    destruct (group 1 m) as [v |] eqn:G.
    2:{ exists acc3. split; [reflexivity |]. intros c. split; [tauto |].
        intros [H | [m' [Hm [Hg _]]]]; [assumption |].
        inversion Hm; subst. congruence. }
    destruct (truthy v) eqn:T.
    - apply truthy_true in T. eexists. split; [reflexivity |]. intros c.
      rewrite In_push. split.
      + intros [H | ->]; [now left |]. right. now exists m.
      + intros [H | [m' [Hm [Hg _]]]]; [now left |].
        inversion Hm; subst. right. congruence.
    - apply truthy_false in T. exists acc3. split; [reflexivity |].
      intros c. split; [tauto |].
      intros [H | [m' [Hm [Hg Hv]]]]; [assumption |].
      inversion Hm; subst. congruence. }
  destruct H4 as [acc4 [-> H4]].
  exists acc4. split; [reflexivity |]. intros c.
  rewrite H4, H3, H2, H1. subst R1 R2 R3 R4. cbv beta. tauto.
Qed.

Lemma color_of_container_spec (acc : list string) (container : string) :
  exists acc',
    Part000.color_of_container acc container = Ok acc'
    /\ forall c, In c acc' <->
         In c acc \/ (truthy container = true
                      /\ exists item, In item (Part000.color_items container)
                                      /\ color_from_item item c).
Proof.
  unfold Part000.color_of_container.
  destruct (truthy container); cbn [negb].
  - destruct (for_of_collect color_from_item
                (Part000.color_items container) Part000.color_of_item
                color_of_item_spec acc) as [r [-> Hr]].
    exists r. split; [reflexivity |]. intros c. rewrite Hr. tauto.
  - exists acc. split; [reflexivity |]. intros c.
    split; [tauto | intros [H | [H _]]; [assumption | discriminate]].
Qed.

(** [extractColorOptions] never throws; what it returns has no duplicate,
    and holds exactly the contributions of the items of the containers that
    pass the last filter. *)
Lemma extractColorOptions_spec (html : string) :
  exists colors,
    Part000.extractColorOptions html = Ok colors
    /\ NoDup colors
    /\ forall c, In c colors <-> Part000.keep c = true /\ color_from html c.
Proof.
  unfold Part000.extractColorOptions.
  destruct (for_of_collect
              (fun container c =>
                 truthy container = true
                 /\ exists item, In item (Part000.color_items container)
                                 /\ color_from_item item c)
              (Part000.colorContainers html) Part000.color_of_container
              color_of_container_spec []) as [r [-> Hr]].
  cbn [bind]. eexists. split; [reflexivity |]. split.
  - apply filter_NoDup, new_Set_NoDup.
  - intros c. rewrite filter_In, new_Set_In, Hr. unfold color_from. split.
    + intros [[[] | [container [Hc [_ [item [Hi H]]]]]] K].
      split; [assumption |]. now exists container, item.
    + intros [K [container [item [Hc [Hi H]]]]]. split; [| assumption].
      right. exists container. split; [assumption |]. split.
      * eapply filter_Boolean_truthy. exact Hc.
      * now exists item.
Qed.

(* ================================================================== *)
(** * The prompt assembler *)

Lemma orelse_Some {A : Type} (a b : option A) (x : A) :
  a ||| b = Some x -> a = Some x \/ b = Some x.
Proof. destruct a; simpl; auto. Qed.

Lemma titleMatch_group1 (html : string) (m : match_array) :
  Part000.titleMatch html = Some m -> exists g, group 1 m = Some g.
Proof.
  unfold Part000.titleMatch. intros H.
  apply orelse_Some in H. destruct H as [H | H];
    [apply orelse_Some in H; destruct H as [H | H] |];
    (eapply exec_group1; [| exact H]); reflexivity.
Qed.

Lemma descMatch_group1 (html : string) (m : match_array) :
  Part000.descMatch html = Some m -> exists g, group 1 m = Some g.
Proof.
  unfold Part000.descMatch. intros H.
  apply orelse_Some in H. destruct H as [H | H];
    (eapply exec_group1; [| exact H]); reflexivity.
Qed.

Lemma catMatch_group1 (html : string) (m : match_array) :
  Part000.catMatch html = Some m -> exists g, group 1 m = Some g.
Proof.
  unfold Part000.catMatch. intros H.
  apply orelse_Some in H. destruct H as [H | H];
    (eapply exec_group1; [| exact H]); reflexivity.
Qed.

Lemma string_length_app (a b : string) :
  length (a ++ b) = length a + length b.
Proof. induction a as [| c a IH]; simpl; [reflexivity | now rewrite IH]. Qed.

Lemma length_substring0 (n : nat) (s : string) :
  length (substring0 n s) = Nat.min n (length s).
Proof.
  unfold substring0. revert s.
  induction n as [| n IH]; intros [| c s]; simpl; auto.
Qed.

Lemma line_of_length (label : string) (b : bool) (l : list string) :
  line_of label b l -> List.length l = if b then 1 else 0.
Proof.
  destruct b; simpl; [intros [text ->] | intros ->]; reflexivity.
Qed.

Lemma title_line_spec (html : string) :
  exists l, Part000.title_line html = Ok l
    /\ line_of "PRODUCT TITLE: " (is_some (Part000.titleMatch html)) l.
Proof.
  unfold Part000.title_line.
  destruct (Part000.titleMatch html) as [m |] eqn:E; simpl.
  - destruct (titleMatch_group1 _ _ E) as [g G]. simpl in G. rewrite G.
    simpl. eexists. split; [reflexivity | now eexists].
  - now exists [].
Qed.

Lemma price_line_spec (html : string) :
  exists l, Part000.price_line html = Ok l
    /\ line_of "PRODUCT PRICE: " (is_some (Part000.priceMatch html)) l.
Proof.
  unfold Part000.price_line.
  destruct (Part000.priceMatch html) as [m |]; simpl.
  - eexists. split; [reflexivity | now eexists].
  - now exists [].
Qed.

Lemma size_line_spec (html : string) :
  exists l, Part000.size_line html = Ok l
    /\ line_of "AVAILABLE SIZE OPTIONS: "
         (some_option (Part000.extractSizeOptions html false)) l.
Proof.
  unfold Part000.size_line.
  destruct (extractSizeOptions_spec html false) as [sizes [-> _]].
  destruct sizes as [| x t]; simpl.
  - now exists [].
  - eexists. split; [reflexivity | now eexists].
Qed.

Lemma color_line_spec (html : string) :
  exists l, Part000.color_line html = Ok l
    /\ line_of "AVAILABLE COLOR OPTIONS: "
         (some_option (Part000.extractColorOptions html)) l.
Proof.
  unfold Part000.color_line.
  destruct (extractColorOptions_spec html) as [colors [-> _]].
  destruct colors as [| x t]; simpl.
  - now exists [].
  - eexists. split; [reflexivity | now eexists].
Qed.

Lemma description_line_spec (html : string) :
  exists l, Part000.description_line html = Ok l
    /\ line_of "PRODUCT DESCRIPTION: " (is_some (Part000.descMatch html)) l
    /\ (is_some (Part000.descMatch html) = true ->
        exists text, l = ["PRODUCT DESCRIPTION: " ++ text ++ "..."]
                     /\ length text <= 200).
Proof.
  unfold Part000.description_line.
  destruct (Part000.descMatch html) as [m |] eqn:E; simpl.
  - destruct (descMatch_group1 _ _ E) as [g G]. simpl in G. rewrite G.
    simpl. eexists. split; [reflexivity |]. split; [now eexists |].
    intros _. eexists. split; [reflexivity |].
    rewrite length_substring0. apply Nat.le_min_l.
  - exists []. repeat split. discriminate.
Qed.

Lemma category_line_spec (html : string) :
  exists l, Part000.category_line html = Ok l
    /\ line_of "PRODUCT CATEGORY: " (is_some (Part000.catMatch html)) l.
Proof.
  unfold Part000.category_line.
  destruct (Part000.catMatch html) as [m |] eqn:E; simpl.
  - destruct (catMatch_group1 _ _ E) as [g G]. simpl in G. rewrite G.
    simpl. eexists. split; [reflexivity | now eexists].
  - now exists [].
Qed.

Lemma prefix_app (a b : string) : prefix a (a ++ b) = true.
Proof.
  induction a as [| c a IH]; simpl; [now destruct b |].
  destruct (ascii_dec c c); [exact IH | congruence].
Qed.

Lemma line_of_labeled (label : string) (b : bool) (l : list string) :
  In label labels -> line_of label b l -> Forall labeled l.
Proof.
  intros Hl. destruct b; simpl; [intros [text ->] | intros ->]; constructor.
  - exists label. split; [assumption | apply prefix_app].
  - constructor.
Qed.

Lemma productInfo_labeled (html : string) (info : list string) :
  Part000.productInfo html = Ok info -> Forall labeled info.
Proof.
  unfold Part000.productInfo.
  destruct (title_line_spec html) as [t [-> Ht]].
  destruct (price_line_spec html) as [p [-> Hp]].
  destruct (size_line_spec html) as [s [-> Hs]].
  destruct (color_line_spec html) as [c [-> Hc]].
  destruct (description_line_spec html) as [d [-> [Hd _]]].
  destruct (category_line_spec html) as [g [-> Hg]].
  cbn [bind]. intros H. inversion H; subst. clear H.
  rewrite !Forall_app.
  pose proof (line_of_labeled _ _ _ (or_introl eq_refl) Ht).
  pose proof (line_of_labeled _ _ _ (or_intror (or_introl eq_refl)) Hp).
  pose proof (line_of_labeled _ _ _
                (or_intror (or_intror (or_introl eq_refl))) Hs).
  pose proof (line_of_labeled _ _ _
                (or_intror (or_intror (or_intror (or_introl eq_refl)))) Hc).
  pose proof (line_of_labeled _ _ _
                (or_intror (or_intror (or_intror (or_intror
                  (or_introl eq_refl))))) Hd).
  pose proof (line_of_labeled _ _ _
                (or_intror (or_intror (or_intror (or_intror (or_intror
                  (or_introl eq_refl)))))) Hg).
  tauto.
Qed.

(** [productInfo] never throws and holds one line for each field found. *)
Lemma productInfo_spec (html : string) :
  exists info, Part000.productInfo html = Ok info
    /\ List.length info = count_found html.
Proof.
  unfold Part000.productInfo, count_found, found.
  destruct (title_line_spec html) as [t [-> Ht]].
  destruct (price_line_spec html) as [p [-> Hp]].
  destruct (size_line_spec html) as [s [-> Hs]].
  destruct (color_line_spec html) as [c [-> Hc]].
  destruct (description_line_spec html) as [d [-> [Hd _]]].
  destruct (category_line_spec html) as [g [-> Hg]].
  cbn [bind]. eexists. split; [reflexivity |].
  apply line_of_length in Ht, Hp, Hs, Hc, Hd, Hg.
  rewrite !List.length_app. rewrite Ht, Hp, Hs, Hc, Hd, Hg.
  destruct (is_some (Part000.titleMatch html)),
    (is_some (Part000.priceMatch html)),
    (some_option (Part000.extractSizeOptions html false)),
    (some_option (Part000.extractColorOptions html)),
    (is_some (Part000.descMatch html)),
    (is_some (Part000.catMatch html)); reflexivity.
Qed.

(* ================================================================== *)
(** * The span between braces *)

Lemma star_any_last_close (t : string) :
  forall fuel p c, length t < fuel ->
  star_loop true (rmatch false (Cls Any))
    (rmatch false (Seq (Lit "}") Eps) Some) fuel (MState t p c)
  = match after_last_close t with
    | Some r => Some (MState r (Some "}"%char) c)
    | None => None
    end.
Proof.
  induction t as [| x t IH]; intros fuel p c Hf;
    (destruct fuel as [| f]; [inversion Hf |]).
  - reflexivity.
  - cbn [star_loop rmatch eat rest caps in_cset after_last_close].
    replace (Nat.ltb (length t) (length (String x t))) with true
      by (symmetry; apply Nat.ltb_lt; simpl; lia).
    rewrite IH by (simpl in Hf; lia).
    destruct (after_last_close t) as [r |]; [reflexivity |].
    unfold lit_ok. destruct (Ascii.eqb "}" x) eqn:E; [| reflexivity].
    apply Ascii.eqb_eq in E. now subst x.
Qed.

Lemma match_here_braces (before : option ascii) (s : string) :
  match_here braces before s
  = match s with
    | String c t =>
        if Ascii.eqb "{" c then
          match after_last_close t with
          | Some r => Some (MState r (Some "}"%char) [])
          | None => None
          end
        else None
    | "" => None
    end.
Proof.
  destruct s as [| c t]; [reflexivity |].
  unfold match_here, braces, seq.
  cbn [body icase fold_right rmatch eat rest caps lit_ok].
  destruct (Ascii.eqb "{" c); [| reflexivity].
  apply star_any_last_close. simpl. lia.
Qed.

Lemma no_close_no_span (s : string) :
  after_last_close s = None -> brace_span s = None.
Proof.
  induction s as [| c t IH]; cbn [after_last_close brace_span];
    [reflexivity |].
  destruct (after_last_close t) as [r |]; [discriminate |].
  intros _. rewrite IH by reflexivity. now destruct (Ascii.eqb "{" c).
Qed.

(** [content.match(/\{[\s\S]*\}/)] finds the span from the first opening
    brace to the last closing brace. *)
Lemma search_braces (s : string) :
  forall before idx,
  option_map whole (search braces before s idx) = brace_span s.
Proof.
  induction s as [| c t IH]; intros before idx.
  - reflexivity.
  - cbn [search]. rewrite match_here_braces. cbn [brace_span].
    destruct (Ascii.eqb "{" c).
    + destruct (after_last_close t) as [r |] eqn:E; [reflexivity |].
      apply IH.
    + apply IH.
Qed.

Lemma exec_braces (s : string) :
  option_map whole (exec braces s) = brace_span s.
Proof. apply search_braces. Qed.

Lemma after_last_close_Some (t r : string) :
  after_last_close t = Some r ->
  exists mid, t = mid ++ String "}" r /\ mem "}" r = false.
Proof.
  revert r. induction t as [| c t IH]; intros r; cbn [after_last_close];
    [discriminate |].
  destruct (after_last_close t) as [r' |] eqn:E.
  - intros H. inversion H; subst. destruct (IH r eq_refl) as [mid [-> Hr]].
    now exists (String c mid).
  - destruct (Ascii.eqb "}" c) eqn:C; [| discriminate].
    intros H. inversion H; subst. apply Ascii.eqb_eq in C. subst c.
    exists "". split; [reflexivity |].
    clear IH H. induction r as [| x r IH]; [reflexivity |].
    cbn [after_last_close] in E.
    destruct (after_last_close r); [discriminate |].
    destruct (Ascii.eqb "}" x) eqn:X; [discriminate |].
    cbn [mem]. rewrite X. now apply IH.
Qed.

Lemma after_last_close_app (a b : string) :
  after_last_close (a ++ String "}" b) <> None.
Proof.
  induction a as [| c a IH]; cbn [append after_last_close].
  - rewrite Ascii.eqb_refl. now destruct (after_last_close b).
  - now destruct (after_last_close (a ++ String "}" b)).
Qed.

Lemma substring_prefix (a r : string) :
  substring 0 (length (a ++ r) - length r) (a ++ r) = a.
Proof.
  rewrite string_length_app.
  replace (length a + length r - length r) with (length a) by lia.
  induction a as [| c a IH]; simpl.
  - now destruct r.
  - now rewrite IH.
Qed.

(** The span starts at the first opening brace of the text and ends at its
    last closing brace. *)
Lemma brace_span_Some (s w : string) :
  brace_span s = Some w ->
  exists pre mid post,
    s = pre ++ String "{" (mid ++ String "}" post)
    /\ w = String "{" (mid ++ String "}" "")
    /\ mem "{" pre = false /\ mem "}" post = false.
Proof.
  revert w. induction s as [| c t IH]; intros w; [discriminate |].
  cbn [brace_span]. destruct (Ascii.eqb "{" c) eqn:C.
  - apply Ascii.eqb_eq in C. subst c.
    destruct (after_last_close t) as [r |] eqn:E.
    + intros H. inversion H; subst. clear H.
      destruct (after_last_close_Some _ _ E) as [mid [-> Hr]].
      exists "", mid, r. repeat split; [| assumption].
      pose proof (substring_prefix (String "{" (mid ++ String "}" "")) r)
        as P.
      replace (String "{" (mid ++ String "}" "") ++ r)
        with (String "{" (mid ++ String "}" r)) in P; [exact P |].
      simpl. f_equal. clear. induction mid; simpl; congruence.
    + intros H. rewrite no_close_no_span in H by assumption. discriminate.
  - intros H. destruct (IH w H) as [pre [mid [post [-> [-> [Hp Hq]]]]]].
    exists (String c pre), mid, post. repeat split; [| assumption].
    cbn [mem]. now rewrite C.
Qed.

(** Without a span, no opening brace of the text has a closing brace after
    it. *)
Lemma brace_span_None (s : string) :
  brace_span s = None ->
  forall pre mid post, s <> pre ++ String "{" (mid ++ String "}" post).
Proof.
  intros H pre mid post ->. revert H.
  induction pre as [| c pre IH]; cbn [append brace_span].
  - rewrite Ascii.eqb_refl.
    destruct (after_last_close (mid ++ String "}" post)) eqn:E;
      [discriminate |].
    now apply after_last_close_app in E.
  - destruct (Ascii.eqb "{" c); [| exact IH].
    destruct (after_last_close (pre ++ String "{" (mid ++ String "}" post)))
      eqn:E; [discriminate |].
    exfalso.
    replace (pre ++ String "{" (mid ++ String "}" post))
      with ((pre ++ String "{" mid) ++ String "}" post) in E.
    + now apply after_last_close_app in E.
    + clear. induction pre; simpl; congruence.
Qed.

(* ================================================================== *)
(** * The completion client *)

Lemma stage_throws_content_of (outcome : result completion) (message : string) :
  stage_throws outcome message <-> content_of outcome = Throw message.
Proof.
  split.
  - intros H. destruct H; reflexivity.
  - destruct outcome as [[[| [c |] others]] | e]; simpl; intros H;
      inversion H; subst; constructor.
Qed.

Lemma parse_span_policy (parse : string -> result json) (content : string) :
  match exec braces content with
  | Some jsonMatch =>
      try_catch (v <- parse (whole jsonMatch) ;; Ok (Some v)) (fun _ => Ok None)
  | None => Ok None
  end
  = Ok match brace_span content with
       | Some span =>
           match parse span with
           | Ok v => Some v
           | Throw _ => None
           end
       | None => None
       end.
Proof.
  rewrite <- exec_braces.
  destruct (exec braces content) as [m |]; [| reflexivity].
  simpl. now destruct (parse (whole m)).
Qed.

Lemma Part000_parse_content_policy (h : host) (url content : string) :
  Part000.parse_content h url content
  = Ok (parsing_policy (JSON_parse h) (Part000.not_extracted url) content).
Proof.
  unfold Part000.parse_content, Part000.parse_span, parsing_policy.
  rewrite parse_span_policy.
  destruct (JSON_parse h content); [reflexivity |]. cbn [try_catch bind].
  destruct (brace_span content) as [span |]; [| reflexivity].
  now destruct (JSON_parse h span).
Qed.

Lemma ProductService_parse_content_policy (h : host) (url content : string) :
  ProductService.parse_content h url content
  = Ok (parsing_policy (JSON_parse h) (ProductService.not_extracted url)
          content).
Proof.
  unfold ProductService.parse_content, ProductService.parse_span,
    parsing_policy.
  rewrite parse_span_policy.
  destruct (JSON_parse h content); [reflexivity |]. cbn [try_catch bind].
  destruct (brace_span content) as [span |]; [| reflexivity].
  now destruct (JSON_parse h span).
Qed.

Lemma extractProductInfo_total (html url : string) :
  exists out, Part000.extractProductInfo html url = Ok out.
Proof.
  unfold Part000.extractProductInfo.
  destruct (productInfo_spec html) as [info [-> _]]. cbn [bind].
  destruct (2 <=? List.length info)%nat; now eexists.
Qed.

(** [extractProductData] of part_000 makes one completion call and returns
    the record of its outcome. *)
Lemma Part000_extractProductData_spec (h : host) (html url apiKey : string) :
  exists r,
    Part000.extractProductData h html url apiKey
    = ([CompletionCall apiKey r],
       Ok (record_for (JSON_parse h) (Part000.failed url)
             (Part000.not_extracted url)
             (chat_completions_create h apiKey r))).
Proof.
  unfold Part000.extractProductData.
  destruct (extractProductInfo_total (Part000.cleanHtml html) url) as [p ->].
  exists (Part000.request_for url p).
  unfold record_for, content_of, create, lift, io_try, io_bind, ret.
  destruct (chat_completions_create h apiKey (Part000.request_for url p))
    as [[[| [c |] others]] | e]; cbn [bind first_content logged choices app];
    try reflexivity.
  now rewrite Part000_parse_content_policy.
Qed.

(** [extractProductData] of productService.js does the same with its own
    records. *)
Lemma ProductService_extractProductData_spec (h : host)
    (html url apiKey : string) :
  exists r,
    ProductService.extractProductData h html url apiKey
    = ([CompletionCall apiKey r],
       Ok (record_for (JSON_parse h) (ProductService.failed url)
             (ProductService.not_extracted url)
             (chat_completions_create h apiKey r))).
Proof.
  unfold ProductService.extractProductData.
  exists (ProductService.request_for url (ProductService.simplifyHtml html)).
  unfold record_for, content_of, create, lift, io_try, io_bind, ret.
  destruct (chat_completions_create h apiKey _)
    as [[[| [c |] others]] | e]; cbn [bind first_content logged choices app];
    try reflexivity.
  now rewrite ProductService_parse_content_policy.
Qed.

(* ================================================================== *)
(** * The properties of the completion client *)

(** C2. For every text of an answer, the parser of part_000 follows the
    parsing policy in its order: the strict parse of the whole text, then
    the parse of the span the pattern finds, then the static record.  That
    span runs from the first opening brace of the text to its last closing
    brace; there is none when no closing brace follows an opening one.  For
    the answer
    [Here is the JSON: {...}] the strict parse fails, the span is the
    embedded object, and [extractProductData] returns it parsed. *)
Theorem C2_parsing_order :
  (forall (h : host) (url content : string),
     Part000.parse_content h url content
     = Ok (parsing_policy (JSON_parse h) (Part000.not_extracted url) content))
  /\ (forall content : string,
        option_map whole (exec braces content) = brace_span content)
  /\ (forall content : string,
        match brace_span content with
        | Some span =>
            exists pre mid post,
              content = pre ++ String "{" (mid ++ String "}" post)
              /\ span = String "{" (mid ++ String "}" "")
              /\ mem "{" pre = false /\ mem "}" post = false
        | None =>
            forall pre mid post,
              content <> pre ++ String "{" (mid ++ String "}" post)
        end)
  /\ (let object :=
        dq "{`url`:`x`,`title`:`y`,`category`:`z`,`attributes`:{},`rawPrice`:1}" in
      let answer := "Here is the JSON: " ++ object in
      let parsed :=
        JObject [("url", JString "x"); ("title", JString "y");
                 ("category", JString "z"); ("attributes", JObject []);
                 ("rawPrice", JNumber 1 0)] in
      parse answer = None
      /\ option_map whole (exec braces answer) = Some object
      /\ strict_parse object = Ok parsed
      /\ snd (Part000.extractProductData
                (fixed_host (Ok "<h1>y</h1>") (says answer))
                "<h1>y</h1>" "x" "sk-key") = Ok parsed).
Proof.
  split; [apply Part000_parse_content_policy |].
  split; [apply exec_braces |].
  split.
  { intros content. destruct (brace_span content) as [span |] eqn:E;
      [now apply brace_span_Some | now apply brace_span_None]. }
  cbv zeta. repeat split; vm_compute; reflexivity.
Qed.

(** C3, as the code has it.  When the answer has a text on which both the
    strict parse and the parse of the span fail, [extractProductData] of
    part_000 returns the static record with the url of the call, the title
    [Product Title Not Extracted], the category [Unknown], attributes with
    empty [colorOptions] and [sizeOptions], and the price 0; the one of
    productService.js returns the same record but for its attributes, which
    are the empty object. *)
Theorem C3_static_fallback (h : host) (html url apiKey content : string)
    (others : list (option string)) :
  (forall r, chat_completions_create h apiKey r
             = Ok (Completion (Some content :: others))) ->
  (exists e, JSON_parse h content = Throw e) ->
  (forall span, brace_span content = Some span ->
                exists e, JSON_parse h span = Throw e) ->
  snd (Part000.extractProductData h html url apiKey)
  = Ok (JObject
          [("url", JString url);
           ("title", JString "Product Title Not Extracted");
           ("category", JString "Unknown");
           ("attributes",
            JObject [("colorOptions", JArray []); ("sizeOptions", JArray [])]);
           ("rawPrice", JNumber 0 0)])
  /\ snd (ProductService.extractProductData h html url apiKey)
     = Ok (JObject
             [("url", JString url);
              ("title", JString "Product Title Not Extracted");
              ("category", JString "Unknown");
              ("attributes", JObject []);
              ("rawPrice", JNumber 0 0)]).
Proof.
  intros Hc [e He] Hs.
  assert (P : forall fallback,
             parsing_policy (JSON_parse h) fallback content = fallback).
  { intros fallback. unfold parsing_policy. rewrite He.
    destruct (brace_span content) as [span |] eqn:B; [| reflexivity].
    destruct (Hs span eq_refl) as [e' ->]. reflexivity. }
  destruct (Part000_extractProductData_spec h html url apiKey) as [r1 ->].
  destruct (ProductService_extractProductData_spec h html url apiKey)
    as [r2 ->].
  rewrite !Hc. unfold record_for. cbn [content_of bind first_content logged
    choices snd]. now rewrite !P.
Qed.

(** A use of C3: the answer [garbage]. *)
Lemma C3_static_fallback_witness :
  snd (Part000.extractProductData
         (fixed_host (Ok "") (says "garbage")) "" "http://shop/p" "sk-key")
  = Ok (JObject
          [("url", JString "http://shop/p");
           ("title", JString "Product Title Not Extracted");
           ("category", JString "Unknown");
           ("attributes",
            JObject [("colorOptions", JArray []); ("sizeOptions", JArray [])]);
           ("rawPrice", JNumber 0 0)])
  /\ snd (ProductService.extractProductData
            (fixed_host (Ok "") (says "garbage")) "" "http://shop/p" "sk-key")
     = Ok (JObject
             [("url", JString "http://shop/p");
              ("title", JString "Product Title Not Extracted");
              ("category", JString "Unknown");
              ("attributes", JObject []);
              ("rawPrice", JNumber 0 0)]).
Proof.
  apply (C3_static_fallback (fixed_host (Ok "") (says "garbage")) ""
           "http://shop/p" "sk-key" "garbage" []).
  - reflexivity.
  - eexists. vm_compute. reflexivity.
  - intros span H. vm_compute in H. discriminate.
Defined.

(** C3 as stated fails on productService.js: for the answer [garbage] its
    [extractProductData] returns attributes without [colorOptions] and
    [sizeOptions]. *)
Lemma C3_counterexample :
  let returned :=
    snd (ProductService.extractProductData
           (fixed_host (Ok "") (says "garbage")) "" "http://shop/p" "sk-key") in
  parse "garbage" = None
  /\ exec braces "garbage" = None
  /\ returned
     = Ok (JObject
             [("url", JString "http://shop/p");
              ("title", JString "Product Title Not Extracted");
              ("category", JString "Unknown");
              ("attributes", JObject []);
              ("rawPrice", JNumber 0 0)])
  /\ returned
     <> Ok (JObject
              [("url", JString "http://shop/p");
               ("title", JString "Product Title Not Extracted");
               ("category", JString "Unknown");
               ("attributes",
                JObject [("colorOptions", JArray []);
                         ("sizeOptions", JArray [])]);
               ("rawPrice", JNumber 0 0)]).
Proof.
  cbv zeta. repeat split; try (vm_compute; reflexivity).
  vm_compute. discriminate.
Qed.

(** C10, as the code has it.  For the same outcome of the completion call
    the two versions of [extractProductData] read the answer in the same
    way and return the same record whenever a JSON value is read from it.
    Their fallback records differ: when nothing can be read, part_000
    returns attributes with empty [colorOptions] and [sizeOptions] and
    productService.js the empty object; when the stage throws, part_000
    returns the category [Unknown] and productService.js the category
    [Error], with the same difference of attributes.  The url, the title
    and the price of the fallback records are the same. *)
Theorem C10_two_versions (h : host) (html url apiKey : string)
    (outcome : result completion) :
  (forall r, chat_completions_create h apiKey r = outcome) ->
  let new := snd (Part000.extractProductData h html url apiKey) in
  let old := snd (ProductService.extractProductData h html url apiKey) in
  (forall content v,
     content_of outcome = Ok content ->
     (JSON_parse h content = Ok v
      \/ exists e span, JSON_parse h content = Throw e
                        /\ brace_span content = Some span
                        /\ JSON_parse h span = Ok v) ->
     new = Ok v /\ old = Ok v)
  /\ (forall content,
        content_of outcome = Ok content ->
        (exists e, JSON_parse h content = Throw e) ->
        (forall span, brace_span content = Some span ->
                      exists e, JSON_parse h span = Throw e) ->
        new = Ok (JObject
                    [("url", JString url);
                     ("title", JString "Product Title Not Extracted");
                     ("category", JString "Unknown");
                     ("attributes",
                      JObject [("colorOptions", JArray []);
                               ("sizeOptions", JArray [])]);
                     ("rawPrice", JNumber 0 0)])
        /\ old = Ok (JObject
                       [("url", JString url);
                        ("title", JString "Product Title Not Extracted");
                        ("category", JString "Unknown");
                        ("attributes", JObject []);
                        ("rawPrice", JNumber 0 0)]))
  /\ (forall message,
        stage_throws outcome message ->
        new = Ok (JObject
                    [("url", JString url);
                     ("title", JString ("Error: " ++ substring0 30 message));
                     ("category", JString "Unknown");
                     ("attributes",
                      JObject [("colorOptions", JArray []);
                               ("sizeOptions", JArray [])]);
                     ("rawPrice", JNumber 0 0)])
        /\ old = Ok (JObject
                       [("url", JString url);
                        ("title", JString ("Error: " ++ substring0 30 message));
                        ("category", JString "Error");
                        ("attributes", JObject []);
                        ("rawPrice", JNumber 0 0)])).
Proof.
  intros Hc. cbv zeta.
  destruct (Part000_extractProductData_spec h html url apiKey) as [r1 ->].
  destruct (ProductService_extractProductData_spec h html url apiKey)
    as [r2 ->].
  rewrite !Hc. unfold record_for. cbn [snd]. repeat split.
  - rewrite H. unfold parsing_policy.
    destruct H0 as [-> | [e [span [-> [-> ->]]]]]; reflexivity.
  - rewrite H. unfold parsing_policy.
    destruct H0 as [-> | [e [span [-> [-> ->]]]]]; reflexivity.
  - rewrite H. unfold parsing_policy. destruct H0 as [e ->].
    destruct (brace_span content) as [span |]; [| reflexivity].
    destruct (H1 span eq_refl) as [e' ->]. reflexivity.
  - rewrite H. unfold parsing_policy. destruct H0 as [e ->].
    destruct (brace_span content) as [span |]; [| reflexivity].
    destruct (H1 span eq_refl) as [e' ->]. reflexivity.
  - apply stage_throws_content_of in H. now rewrite H.
  - apply stage_throws_content_of in H. now rewrite H.
Qed.

(** A use of C10: a completion call rejected for a bad credential. *)
Lemma C10_two_versions_witness :
  snd (Part000.extractProductData
         (fixed_host (Ok "") (Throw "401 Incorrect API key provided"))
         "" "http://shop/p" "sk-key")
  = Ok (JObject
          [("url", JString "http://shop/p");
           ("title", JString "Error: 401 Incorrect API key provided");
           ("category", JString "Unknown");
           ("attributes",
            JObject [("colorOptions", JArray []); ("sizeOptions", JArray [])]);
           ("rawPrice", JNumber 0 0)])
  /\ snd (ProductService.extractProductData
            (fixed_host (Ok "") (Throw "401 Incorrect API key provided"))
            "" "http://shop/p" "sk-key")
     = Ok (JObject
             [("url", JString "http://shop/p");
              ("title", JString "Error: 401 Incorrect API key provided");
              ("category", JString "Error");
              ("attributes", JObject []);
              ("rawPrice", JNumber 0 0)]).
Proof.
  exact (proj2 (proj2
           (C10_two_versions
              (fixed_host (Ok "") (Throw "401 Incorrect API key provided"))
              "" "http://shop/p" "sk-key"
              (Throw "401 Incorrect API key provided")
              (fun _ => eq_refl)))
           "401 Incorrect API key provided"
           (rejected "401 Incorrect API key provided")).
Defined.

(** C10 as stated fails: for the same rejected completion call the two
    versions return different records. *)
Lemma C10_counterexample :
  let h := fixed_host (Ok "") (Throw "401 Incorrect API key provided") in
  snd (Part000.extractProductData h "" "http://shop/p" "sk-key")
  <> snd (ProductService.extractProductData h "" "http://shop/p" "sk-key").
Proof. vm_compute. discriminate. Qed.

(* ================================================================== *)
(** * The endpoint *)

Lemma fetchProductPage_Ok (svc : service) (h : host) (url html : string) :
  svc = Part000.exports \/ svc = ProductService.exports ->
  axios_get h url userAgent = Ok html ->
  fetchProductPage svc h url = ([PageFetch url], Ok html).
Proof.
  intros [-> | ->] H; cbn [fetchProductPage Part000.exports
    ProductService.exports];
    unfold Part000.fetchProductPage, ProductService.fetchProductPage,
      get_page, io_try; now rewrite H.
Qed.

Lemma fetchProductPage_Throw (svc : service) (h : host)
    (url message : string) :
  svc = Part000.exports \/ svc = ProductService.exports ->
  axios_get h url userAgent = Throw message ->
  fetchProductPage svc h url
  = ([PageFetch url], Throw ("Failed to fetch product page: " ++ message)).
Proof.
  intros [-> | ->] H; cbn [fetchProductPage Part000.exports
    ProductService.exports];
    unfold Part000.fetchProductPage, ProductService.fetchProductPage,
      get_page, io_try; now rewrite H.
Qed.

(** C1. For a request with a url and a credential that are not empty and a
    page fetch that succeeds, the endpoint answers with the status 200
    after one page fetch and one completion call.  Every error of the
    completion stage (a rejected call: no network, bad credential, rate
    limit; a malformed answer) is caught in [extractProductData] and
    becomes a fallback record whose title is [Error: ] followed by the
    first 30 characters of the message of the error.  This holds with
    either version of the service module. *)
Theorem C1_completion_errors_give_200 (h : host) (u k html : string) :
  u <> "" -> k <> "" ->
  axios_get h u userAgent = Ok html ->
  (exists r record,
     Server.parse_product Part000.exports h
       (Server.Body (Some u) (Some k))
     = ([PageFetch u; CompletionCall k r],
        Ok (Server.Response 200 record))
     /\ forall message,
          stage_throws (chat_completions_create h k r) message ->
          record
          = JObject
              [("url", JString u);
               ("title", JString ("Error: " ++ substring0 30 message));
               ("category", JString "Unknown");
               ("attributes",
                JObject [("colorOptions", JArray []);
                         ("sizeOptions", JArray [])]);
               ("rawPrice", JNumber 0 0)])
  /\ (exists r record,
        Server.parse_product ProductService.exports h
          (Server.Body (Some u) (Some k))
        = ([PageFetch u; CompletionCall k r],
           Ok (Server.Response 200 record))
        /\ forall message,
             stage_throws (chat_completions_create h k r) message ->
             record
             = JObject
                 [("url", JString u);
                  ("title", JString ("Error: " ++ substring0 30 message));
                  ("category", JString "Error");
                  ("attributes", JObject []);
                  ("rawPrice", JNumber 0 0)])
  /\ forall message, length (substring0 30 message) <= 30.
Proof.
  intros Hu Hk Hf.
  apply truthy_true in Hu, Hk.
  split; [| split].
  - destruct (Part000_extractProductData_spec h html u k) as [r E].
    exists r. eexists. split.
    + unfold Server.parse_product.
      cbn [Server.url Server.openaiApiKey]. rewrite Hu, Hk. cbn [negb orb].
      rewrite (fetchProductPage_Ok _ _ _ _ (or_introl eq_refl) Hf).
      cbn [extractProductData Part000.exports]. unfold io_bind at 1.
      rewrite E. reflexivity.
    + intros message H. apply stage_throws_content_of in H.
      unfold record_for. now rewrite H.
  - destruct (ProductService_extractProductData_spec h html u k) as [r E].
    exists r. eexists. split.
    + unfold Server.parse_product.
      cbn [Server.url Server.openaiApiKey]. rewrite Hu, Hk. cbn [negb orb].
      rewrite (fetchProductPage_Ok _ _ _ _ (or_intror eq_refl) Hf).
      cbn [extractProductData ProductService.exports]. unfold io_bind at 1.
      rewrite E. reflexivity.
    + intros message H. apply stage_throws_content_of in H.
      unfold record_for. now rewrite H.
  - intros message. rewrite length_substring0. apply Nat.le_min_l.
Qed.

(** A use of C1: a completion call rejected for a rate limit; the title
    keeps the first 30 characters of the message. *)
Lemma C1_completion_errors_give_200_witness :
  let h :=
    fixed_host (Ok "<h1>Widget</h1>")
      (Throw "Rate limit reached for gpt-4 in organization org-1") in
  snd (Server.parse_product Part000.exports h
         (Server.Body (Some "http://shop/p") (Some "sk-key")))
  = Ok (Server.Response 200
          (JObject
             [("url", JString "http://shop/p");
              ("title", JString "Error: Rate limit reached for gpt-4 i");
              ("category", JString "Unknown");
              ("attributes",
               JObject [("colorOptions", JArray []);
                        ("sizeOptions", JArray [])]);
              ("rawPrice", JNumber 0 0)])).
Proof.
  cbv zeta.
  destruct (C1_completion_errors_give_200
              (fixed_host (Ok "<h1>Widget</h1>")
                 (Throw "Rate limit reached for gpt-4 in organization org-1"))
              "http://shop/p" "sk-key" "<h1>Widget</h1>")
    as [[r [record [E H]]] _];
    [discriminate | discriminate | reflexivity |].
  rewrite E. cbn [snd].
  rewrite (H _ (rejected _)). reflexivity.
Defined.

(** C4. A request whose url is absent or empty, or whose credential is
    absent or empty, is answered with the status 400 and the fixed error
    body, whatever the other field holds, and no page fetch or completion
    call is made. *)
Theorem C4_missing_parameters (svc : service) (h : host) (req : Server.body) :
  Server.url req = None \/ Server.url req = Some ""
  \/ Server.openaiApiKey req = None \/ Server.openaiApiKey req = Some "" ->
  Server.parse_product svc h req
  = ([],
     Ok (Server.Response 400
           (JObject
              [("error",
                JString
                  "Missing required parameters: url and openaiApiKey are required")]))).
Proof.
  destruct req as [[u |] [k |]]; cbn [Server.url Server.openaiApiKey];
    unfold Server.parse_product; cbn [Server.url Server.openaiApiKey];
    try reflexivity.
  intros [H | [H | [H | H]]]; try discriminate.
  - inversion H; subst. reflexivity.
  - inversion H; subst. cbn [truthy negb]. rewrite orb_true_r. reflexivity.
Qed.

(** A use of C4: a request with a url and without a credential. *)
Lemma C4_missing_parameters_witness :
  Server.parse_product Part000.exports
    (fixed_host (Ok "<h1>Widget</h1>") (says "{}"))
    (Server.Body (Some "http://shop/p") None)
  = ([],
     Ok (Server.Response 400
           (JObject
              [("error",
                JString
                  "Missing required parameters: url and openaiApiKey are required")]))).
Proof.
  apply C4_missing_parameters. cbn [Server.openaiApiKey]. tauto.
Defined.

(** C5. For a request that passes the validation and whose page fetch
    throws, the endpoint answers with the status 500; the [error] of the
    body is [Failed to process product URL] and its [message] is
    [Failed to fetch product page: ] followed by the message of the error
    of the fetch.  No completion call is made.  This holds with either
    version of the service module. *)
Theorem C5_fetch_failure (svc : service) (h : host) (u k message : string) :
  svc = Part000.exports \/ svc = ProductService.exports ->
  u <> "" -> k <> "" ->
  axios_get h u userAgent = Throw message ->
  Server.parse_product svc h (Server.Body (Some u) (Some k))
  = ([PageFetch u],
     Ok (Server.Response 500
           (JObject
              [("error", JString "Failed to process product URL");
               ("message",
                JString ("Failed to fetch product page: " ++ message))]))).
Proof.
  intros Hs Hu Hk Hf. apply truthy_true in Hu, Hk.
  unfold Server.parse_product. cbn [Server.url Server.openaiApiKey].
  rewrite Hu, Hk. cbn [negb orb].
  rewrite (fetchProductPage_Throw _ _ _ _ Hs Hf). reflexivity.
Qed.

(** A use of C5: a name that does not resolve. *)
Lemma C5_fetch_failure_witness :
  Server.parse_product Part000.exports
    (fixed_host (Throw "getaddrinfo ENOTFOUND shop") (says "{}"))
    (Server.Body (Some "http://shop/p") (Some "sk-key"))
  = ([PageFetch "http://shop/p"],
     Ok (Server.Response 500
           (JObject
              [("error", JString "Failed to process product URL");
               ("message",
                JString
                  "Failed to fetch product page: getaddrinfo ENOTFOUND shop")]))).
Proof.
  apply (C5_fetch_failure Part000.exports
           (fixed_host (Throw "getaddrinfo ENOTFOUND shop") (says "{}"))
           "http://shop/p" "sk-key" "getaddrinfo ENOTFOUND shop");
    [now left | discriminate | discriminate | reflexivity].
Defined.

(* ================================================================== *)
(** * The properties of the extractors *)

(** C6, as the code has it.  For every markup the size extractor never
    throws and returns, without duplicates (texts are compared as they are,
    so case-sensitively), exactly the contributions of the items (option,
    li, button, a, div with option) of the containers (the first select,
    div and ul whose tag names size or variant) that pass its last filter.
    An item that signals unavailability (disabled, sold out, out of stock,
    unavailable) contributes nothing, nor does an item whose visible text is
    empty or contains [Select] or [Choose]; any other item contributes its
    visible text and also its [value] attribute when that one is not empty,
    not made of digits, without [select] and shorter than 10 characters.
    The last filter keeps the texts that are not empty, shorter than 20
    characters and without [select] and [choose].  The three select lists
    below have three options, one of which contains [Sold Out]: without
    [value] attributes, or with values equal to the texts, exactly the two
    other options are returned; with values that differ from the texts,
    those values are returned as well. *)
Theorem C6_size_options :
  (forall html,
     exists sizes,
       Part000.extractSizeOptions html false = Ok sizes
       /\ NoDup sizes
       /\ (forall c, In c sizes <->
             Part000.keep c = true /\ size_from false html c)
       /\ Forall (fun c => c <> "" /\ length c < 20) sizes)
  /\ Part000.extractSizeOptions
       "<select name='size'><option>S</option><option>M</option><option>L - Sold Out</option></select>"
       false
     = Ok ["S"; "M"]
  /\ Part000.extractSizeOptions
       "<select name='size'><option value='S'>S</option><option value='M'>M</option><option value='L'>L - Sold Out</option></select>"
       false
     = Ok ["S"; "M"]
  /\ Part000.extractSizeOptions
       "<select name='size'><option value='small'>Small</option><option value='medium'>Medium</option><option value='large'>Large - Sold Out</option></select>"
       false
     = Ok ["Small"; "small"; "Medium"; "medium"].
Proof.
  split; [| split; [| split]; vm_compute; reflexivity].
  intros html.
  destruct (extractSizeOptions_spec html false) as [sizes [E [N I]]].
  exists sizes. split; [exact E |]. split; [exact N |]. split; [exact I |].
  apply Forall_forall. intros c H. apply I in H. now apply keep_spec.
Qed.

(** C6 as stated fails: a select list of three options, one of which
    contains [Sold Out], whose options have [value] attributes, gives four
    texts and not exactly the two other options. *)
Lemma C6_counterexample :
  let returned :=
    Part000.extractSizeOptions
      "<select name='size'><option value='small'>Small</option><option value='medium'>Medium</option><option value='large'>Large - Sold Out</option></select>"
      false in
  returned = Ok ["Small"; "small"; "Medium"; "medium"]
  /\ returned <> Ok ["Small"; "Medium"].
Proof.
  cbv zeta. split; [vm_compute; reflexivity | vm_compute; discriminate].
Qed.

(** C8, as the code has it.  For every markup the color extractor never
    throws and returns, without duplicates, exactly the contributions of
    the available items of its containers that pass the last filter, so
    every returned text is not empty and shorter than 20 characters.  An
    item contributes its visible text when that one is not a placeholder and
    either contains a name of the vocabulary or is shorter than 15
    characters; the value of the background of its inline style and its
    [data-color] attribute, both without a look at the vocabulary; and, for
    each name of its class, the first name of the vocabulary that the class
    name contains. *)
Theorem C8_color_options :
  (forall html,
     exists colors,
       Part000.extractColorOptions html = Ok colors
       /\ NoDup colors
       /\ (forall c, In c colors <->
             Part000.keep c = true /\ color_from html c)
       /\ Forall (fun c => c <> "" /\ length c < 20) colors)
  /\ Part000.extractColorOptions
       "<div class='colors'><a style='background:#fff'>Zzz</a><a data-color='xyz' class='sw navy-blue'>Pick</a></div>"
     = Ok ["Zzz"; "#fff"; "Pick"; "blue"; "xyz"].
Proof.
  split; [| vm_compute; reflexivity].
  intros html.
  destruct (extractColorOptions_spec html) as [colors [E [N I]]].
  exists colors. split; [exact E |]. split; [exact N |]. split; [exact I |].
  apply Forall_forall. intros c H. apply I in H. now apply keep_spec.
Qed.

(** C8 as stated fails: the extractor returns texts that match no name of
    the vocabulary. *)
Lemma C8_counterexample :
  Part000.extractColorOptions
    "<div class='colors'><a style='background:#fff'>Zzz</a></div>"
  = Ok ["Zzz"; "#fff"]
  /\ Part000.names_a_color "Zzz" = false
  /\ Part000.names_a_color "#fff" = false
  /\ ~ (forall html colors c,
          Part000.extractColorOptions html = Ok colors ->
          In c colors -> Part000.names_a_color c = true).
Proof.
  assert (E : Part000.extractColorOptions
                "<div class='colors'><a style='background:#fff'>Zzz</a></div>"
              = Ok ["Zzz"; "#fff"]) by (vm_compute; reflexivity).
  assert (N : Part000.names_a_color "#fff" = false)
    by (vm_compute; reflexivity).
  split; [exact E |]. split; [vm_compute; reflexivity |].
  split; [exact N |].
  intros H.
  specialize (H _ _ "#fff" E (or_intror (or_introl eq_refl))).
  congruence.
Qed.

Lemma length_repeat_char (c : ascii) (n : nat) :
  length (repeat_char c n) = n.
Proof.
  unfold repeat_char. induction n as [| n IH]; simpl; [reflexivity |].
  now rewrite IH.
Qed.

Lemma raw_length (url html : string) :
  length (Part000.raw url html)
  = 28 + length url + Nat.min 4000 (length html).
Proof.
  unfold Part000.raw.
  rewrite (string_length_app nl), (string_length_app "PRODUCT URL: "),
    (string_length_app url), (string_length_app nl),
    (string_length_app "RAW HTML:"), (string_length_app nl),
    (string_length_app (substring0 4000 html)), (string_length_app nl).
  rewrite length_substring0.
  change (length nl) with 1.
  change (length "PRODUCT URL: ") with 13.
  change (length "RAW HTML:") with 9.
  change (length "  ") with 2.
  generalize (Nat.min 4000 (length html)). intros m. lia.
Qed.

Lemma structured_length (url html : string) (info : list string) :
  length (Part000.structured url info html)
  = 48 + length url + length (join nl info) + Nat.min 2000 (length html).
Proof.
  unfold Part000.structured.
  rewrite (string_length_app nl), (string_length_app "PRODUCT URL: "),
    (string_length_app url), (string_length_app nl),
    (string_length_app (join nl info)), (string_length_app nl),
    (string_length_app nl), (string_length_app "ADDITIONAL HTML SNIPPETS:"),
    (string_length_app nl), (string_length_app (substring0 2000 html)),
    (string_length_app nl).
  rewrite length_substring0.
  change (length nl) with 1.
  change (length "PRODUCT URL: ") with 13.
  change (length "ADDITIONAL HTML SNIPPETS:") with 25.
  change (length "    ") with 4.
  generalize (Nat.min 2000 (length html)). intros m. lia.
Qed.

(** C7, as the code has it.  For every markup and url the prompt assembler
    never throws.  With [info] the labeled lines of the fields found, one
    line for each, it returns, when at least two fields are found, the url,
    those lines and the first 2000 characters of the markup, and otherwise
    the url and the first 4000 characters of the markup.  The excerpt of
    the markup is capped; the length of the whole text is the sum given
    here, which grows with the url and with the lines. *)
Theorem C7_prompt_assembly (html url : string) :
  exists info out,
    Part000.productInfo html = Ok info
    /\ List.length info = count_found html
    /\ Forall labeled info
    /\ Part000.extractProductInfo html url = Ok out
    /\ out
       = (if (2 <=? count_found html)%nat
          then nl ++ "PRODUCT URL: " ++ url ++ nl ++ join nl info ++ nl ++ nl
               ++ "ADDITIONAL HTML SNIPPETS:" ++ nl ++ substring0 2000 html
               ++ nl ++ "    "
          else nl ++ "PRODUCT URL: " ++ url ++ nl ++ "RAW HTML:" ++ nl
               ++ substring0 4000 html ++ nl ++ "  ")
    /\ length out
       = (if (2 <=? count_found html)%nat
          then 48 + length url + length (join nl info)
               + Nat.min 2000 (length html)
          else 28 + length url + Nat.min 4000 (length html))
    /\ length (substring0 2000 html) <= 2000
    /\ length (substring0 4000 html) <= 4000.
Proof.
  destruct (productInfo_spec html) as [info [E L]].
  exists info. unfold Part000.extractProductInfo. rewrite E. cbn [bind].
  replace (2 <=? List.length info)%nat with (2 <=? count_found html)%nat
    by now rewrite L.
  destruct (2 <=? count_found html)%nat; eexists;
    (split; [reflexivity |]); (split; [exact L |]);
    (split; [now apply (productInfo_labeled html) |]);
    (split; [reflexivity |]); (split; [reflexivity |]);
    (split; [first [apply structured_length | apply raw_length] |]);
    rewrite !length_substring0; split; apply Nat.le_min_l.
Qed.

(** C7 as stated fails: the length of the text the assembler returns has no
    cap.  It exceeds any bound for a long enough url; and for an empty url
    and a markup with a title of 4500 characters it exceeds 4500. *)
Lemma C7_counterexample :
  ~ (exists cap, forall html url out,
       Part000.extractProductInfo html url = Ok out -> length out <= cap)
  /\ (exists out,
        Part000.extractProductInfo (long_title 4500) "" = Ok out
        /\ 4500 < length out).
Proof.
  split.
  - intros [cap H].
    assert (E : Part000.productInfo "" = Ok []) by (vm_compute; reflexivity).
    specialize (H "" (repeat_char "a" (S cap))
                  (Part000.raw (repeat_char "a" (S cap)) "")).
    unfold Part000.extractProductInfo in H. rewrite E in H.
    specialize (H eq_refl). rewrite raw_length, length_repeat_char in H. lia.
  - assert (E : exists info,
               Part000.productInfo (long_title 4500) = Ok info
               /\ List.length info = 2
               /\ Nat.ltb 4500 (length (join nl info)) = true).
    { eexists. split; [vm_compute; reflexivity |].
      split; vm_compute; reflexivity. }
    destruct E as [info [E [L J]]].
    eexists. unfold Part000.extractProductInfo. rewrite E. cbn [bind].
    rewrite L. cbn [Nat.leb]. split; [reflexivity |].
    rewrite structured_length. apply Nat.ltb_lt in J.
    revert J. generalize (length (join nl info)). intros n J.
    generalize (Nat.min 2000 (length (long_title 4500))). intros m.
    change (length "") with 0. lia.
Qed.

(** C9. Every signal extractor is a total function of the markup that
    never throws: the line of each field (title, price, sizes, colors,
    description, category) is computed for every markup and is absent when
    the field is not found; the two option extractors return an array, empty
    for a markup without options; the assembler returns a text; and
    [extractProductData] returns a record for every markup, so no request
    fails because a field is not detected.  The extractors make no outbound
    call and keep no state: they are functions into [result]. *)
Theorem C9_extractors_never_throw (html url : string) :
  (exists l, Part000.title_line html = Ok l
     /\ line_of "PRODUCT TITLE: " (is_some (Part000.titleMatch html)) l)
  /\ (exists l, Part000.price_line html = Ok l
        /\ line_of "PRODUCT PRICE: " (is_some (Part000.priceMatch html)) l)
  /\ (exists l, Part000.size_line html = Ok l
        /\ line_of "AVAILABLE SIZE OPTIONS: "
             (some_option (Part000.extractSizeOptions html false)) l)
  /\ (exists l, Part000.color_line html = Ok l
        /\ line_of "AVAILABLE COLOR OPTIONS: "
             (some_option (Part000.extractColorOptions html)) l)
  /\ (exists l, Part000.description_line html = Ok l
        /\ line_of "PRODUCT DESCRIPTION: "
             (is_some (Part000.descMatch html)) l)
  /\ (exists l, Part000.category_line html = Ok l
        /\ line_of "PRODUCT CATEGORY: " (is_some (Part000.catMatch html)) l)
  /\ (forall includeUnavailable,
        exists sizes,
          Part000.extractSizeOptions html includeUnavailable = Ok sizes)
  /\ (exists colors, Part000.extractColorOptions html = Ok colors)
  /\ (exists out, Part000.extractProductInfo html url = Ok out)
  /\ (forall h apiKey,
        exists record,
          snd (Part000.extractProductData h html url apiKey) = Ok record)
  /\ Part000.productInfo "<p>Nothing to see</p>" = Ok []
  /\ Part000.extractSizeOptions "<p>Nothing to see</p>" false = Ok []
  /\ Part000.extractColorOptions "<p>Nothing to see</p>" = Ok []
  /\ Part000.extractProductInfo "<p>Nothing to see</p>" "http://shop/p"
     = Ok (nl ++ "PRODUCT URL: http://shop/p" ++ nl ++ "RAW HTML:" ++ nl
           ++ "<p>Nothing to see</p>" ++ nl ++ "  ").
Proof.
  split; [apply title_line_spec |].
  split; [apply price_line_spec |].
  split; [apply size_line_spec |].
  split; [apply color_line_spec |].
  split.
  { destruct (description_line_spec html) as [l [E [H _]]]. now exists l. }
  split; [apply category_line_spec |].
  split.
  { intros b. destruct (extractSizeOptions_spec html b) as [sizes [E _]].
    now exists sizes. }
  split.
  { destruct (extractColorOptions_spec html) as [colors [E _]].
    now exists colors. }
  split; [apply extractProductInfo_total |].
  split.
  { intros h apiKey.
    destruct (Part000_extractProductData_spec h html url apiKey) as [r ->].
    now eexists. }
  repeat split; vm_compute; reflexivity.
Qed.

(* ================================================================== *)
(** * What a match reads *)

Lemma append_assoc (a b c : string) : (a ++ b) ++ c = a ++ b ++ c.
Proof. induction a as [| x a IH]; simpl; congruence. Qed.

Lemma append_empty (a : string) : a ++ "" = a.
Proof. induction a as [| x a IH]; simpl; congruence. Qed.

Lemma has_app (ok : ascii -> bool) (a b : string) :
  has ok (a ++ b) = has ok a || has ok b.
Proof.
  induction a as [| x a IH]; simpl; [reflexivity |].
  now rewrite IH, orb_assoc.
Qed.

Lemma has_false_app_r (ok : ascii -> bool) (a b : string) :
  has ok (a ++ b) = false -> has ok b = false.
Proof. rewrite has_app. now intros H; apply orb_false_elim in H. Qed.

Section Reading.

Variables (i : bool) (c : ascii).

Lemma star_loop_read (g : bool) (body : cont -> cont) (k : cont) :
  passes (fun s s' => exists pre, rest s = pre ++ rest s') body ->
  forall fuel s e, star_loop g body k fuel s = Some e ->
  exists s', k s' = Some e /\ exists pre, rest s = pre ++ rest s'.
Proof.
  intros Hbody. induction fuel as [| f IH]; simpl; intros s e H.
  - exists s. split; [assumption | now exists ""].
  - assert (Hagain : forall e',
      body (fun s' => if Nat.ltb (length (rest s')) (length (rest s))
                      then star_loop g body k f s' else None) s = Some e' ->
      exists s', k s' = Some e' /\ exists pre, rest s = pre ++ rest s').
    { intros e' He'. apply Hbody in He'.
      destruct He' as [s1 [H1 [pre1 K1]]].
      destruct (Nat.ltb _ _); [| discriminate].
      apply IH in H1. destruct H1 as [s2 [H2 [pre2 K2]]].
      exists s2. split; [assumption |]. exists (pre1 ++ pre2).
      now rewrite K1, K2, append_assoc. }
    destruct g.
    + destruct (body _ s) as [e' |] eqn:E.
      * inversion H; subst. now apply Hagain.
      * exists s. split; [assumption | now exists ""].
    + destruct (k s) as [e' |] eqn:E.
      * inversion H; subst. exists s. split; [assumption | now exists ""].
      * now apply Hagain.
Qed.

(** A match reads a piece of the input, long enough for the pattern, that
    holds the literals every match goes through. *)
Lemma rmatch_read (r : regex) : passes (read i c r) (rmatch i r).
Proof.
  induction r as [| p | cs | a IHa b IHb | a IHa b IHb | g a IHa | m a IHa
                 | a IHa | | |]; intros k s e H; cbn [rmatch] in H.
  - exists s. split; [assumption |]. exists "".
    repeat split; auto; try discriminate.
  - unfold eat in H. destruct (rest s) as [| x t] eqn:R; [discriminate |].
    destruct (lit_ok i p x) eqn:L; [| discriminate].
    eexists. split; [exact H |]. exists (String x ""). cbn [rest].
    rewrite R. repeat split; auto.
    cbn [reads has]. intros E. apply Ascii.eqb_eq in E. subst.
    now rewrite L.
  - unfold eat in H. destruct (rest s) as [| x t] eqn:R; [discriminate |].
    destruct (in_cset cs x); [| discriminate].
    eexists. split; [exact H |]. exists (String x ""). cbn [rest].
    rewrite R. repeat split; auto; try discriminate.
  - apply IHa in H. destruct H as [s1 [H1 [pre1 [R1 [L1 C1]]]]].
    apply IHb in H1. destruct H1 as [s2 [H2 [pre2 [R2 [L2 C2]]]]].
    exists s2. split; [assumption |]. exists (pre1 ++ pre2).
    split; [now rewrite R1, R2, append_assoc |]. split.
    + rewrite string_length_app. cbn [min_len]. lia.
    + cbn [reads]. intros F. rewrite has_app.
      apply orb_prop in F. destruct F as [E | E].
      * now rewrite C1.
      * rewrite C2 by assumption. apply orb_true_r.
  - destruct (rmatch i a k s) as [e' |] eqn:E.
    + inversion H; subst. apply IHa in E.
      destruct E as [s1 [H1 [pre [R1 [L1 C1]]]]].
      exists s1. split; [assumption |]. exists pre.
      split; [assumption |]. split.
      * cbn [min_len]. lia.
      * cbn [reads]. intros F. apply andb_prop in F. now apply C1.
    + apply IHb in H. destruct H as [s1 [H1 [pre [R1 [L1 C1]]]]].
      exists s1. split; [assumption |]. exists pre.
      split; [assumption |]. split.
      * cbn [min_len]. lia.
      * cbn [reads]. intros F. apply andb_prop in F. now apply C1.
  - apply star_loop_read in H.
    + destruct H as [s' [H [pre R]]]. exists s'. split; [assumption |].
      exists pre. repeat split; [assumption | cbn [min_len]; lia |].
      discriminate.
    + intros k' s0 e0 H0. apply IHa in H0.
      destruct H0 as [s1 [H1 [pre [R1 _]]]]. exists s1.
      split; [assumption | now exists pre].
  - apply IHa in H. destruct H as [s1 [H1 [pre [R1 [L1 C1]]]]].
    eexists. split; [exact H1 |]. exists pre. cbn [rest].
    repeat split; assumption.
  - destruct (rmatch i a Some s); [discriminate |].
    exists s. split; [assumption |]. exists "".
    repeat split; auto; try discriminate.
  - destruct (xorb _ _); [| discriminate].
    exists s. split; [assumption |]. exists "".
    repeat split; auto; try discriminate.
  - destruct (prev s); [discriminate |].
    exists s. split; [assumption |]. exists "".
    repeat split; auto; try discriminate.
  - destruct (rest s); [| discriminate].
    exists s. split; [assumption |]. exists "".
    repeat split; auto; try discriminate.
Qed.

End Reading.

(** The match found at a place is a prefix of the text there. *)
Lemma match_here_read (p : pattern) (c : ascii) (before : option ascii)
    (s : string) (e : mstate) :
  match_here p before s = Some e ->
  exists pre,
    s = pre ++ rest e
    /\ min_len (body p) <= length pre
    /\ (reads c (body p) = true -> has (lit_ok (icase p) c) pre = true).
Proof.
  unfold match_here. intros H. apply (rmatch_read (icase p) c) in H.
  destruct H as [s' [H1 R]]. inversion H1; subst. exact R.
Qed.

Lemma consumed_length (pre r : string) :
  length (pre ++ r) - length r = length pre.
Proof. rewrite string_length_app. lia. Qed.

(** A pattern that goes through a literal finds nothing in a text without
    it. *)
Lemma search_needs (p : pattern) (c : ascii) :
  reads c (body p) = true ->
  forall s before idx,
  has (lit_ok (icase p) c) s = false -> search p before s idx = None.
Proof.
  intros Hr s. induction s as [| x t IH]; intros before idx Hs;
    cbn [search].
  - destruct (match_here p before "") as [e |] eqn:E; [| reflexivity].
    apply (match_here_read p c) in E. destruct E as [pre [R [_ C]]].
    destruct pre; [| discriminate]. now apply C in Hr.
  - destruct (match_here p before (String x t)) as [e |] eqn:E.
    + apply (match_here_read p c) in E. destruct E as [pre [R [_ C]]].
      apply C in Hr. rewrite R, has_app, Hr in Hs. discriminate.
    + apply IH. cbn [has] in Hs. now apply orb_false_elim in Hs.
Qed.

(** The text a search returns is at least as long as the pattern needs. *)
Lemma search_whole_length (p : pattern) :
  forall s before idx m,
  search p before s idx = Some m -> min_len (body p) <= length (whole m).
Proof.
  intros s. induction s as [| x t IH]; intros before idx m H;
    cbn [search] in H.
  - destruct (match_here p before "") as [e |] eqn:E; [| discriminate].
    inversion H; subst. cbn [whole as_array].
    apply (match_here_read p "000"%char) in E.
    destruct E as [pre [R [L _]]]. destruct pre; [| discriminate].
    simpl in L. lia.
  - destruct (match_here p before (String x t)) as [e |] eqn:E.
    + inversion H; subst. cbn [whole as_array].
      apply (match_here_read p "000"%char) in E.
      destruct E as [pre [R [L _]]]. rewrite R, substring_prefix. exact L.
    + eapply IH. exact H.
Qed.

(* ================================================================== *)
(** * Further properties of the extractors *)

Lemma lit_ok_lt (x : ascii) : lit_ok true "<" x = Ascii.eqb "<" x.
Proof.
  destruct x as [[] [] [] [] [] [] [] []]; vm_compute; reflexivity.
Qed.

Lemma has_lt (s : string) :
  mem "<" s = false -> has (lit_ok true "<") s = false.
Proof.
  induction s as [| x t IH]; cbn [mem has]; [reflexivity |].
  intros H. apply orb_false_elim in H. destruct H as [H1 H2].
  now rewrite lit_ok_lt, H1, IH.
Qed.

(** A case-insensitive pattern that goes through [<] finds nothing in a
    text without [<]. *)
Lemma exec_needs_lt (p : pattern) (html : string) :
  icase p = true -> reads "<" (body p) = true ->
  mem "<" html = false -> exec p html = None.
Proof.
  intros Hi Hr Hm. unfold exec. apply (search_needs p "<" Hr).
  rewrite Hi. now apply has_lt.
Qed.

(** X9. A markup without any [<] has no title, no description, no category
    and no option: both option extractors return the empty array, and the
    assembler returns the url followed by the first 4000 characters of the
    markup, whatever price the text may hold. *)
Theorem markup_without_tags (html url : string) (includeUnavailable : bool) :
  mem "<" html = false ->
  Part000.extractSizeOptions html includeUnavailable = Ok []
  /\ Part000.extractColorOptions html = Ok []
  /\ Part000.titleMatch html = None
  /\ Part000.descMatch html = None
  /\ Part000.catMatch html = None
  /\ Part000.extractProductInfo html url
     = Ok (nl ++ "PRODUCT URL: " ++ url ++ nl ++ "RAW HTML:" ++ nl
           ++ substring0 4000 html ++ nl ++ "  ").
Proof.
  intros Hm.
  assert (N : forall p, icase p = true -> reads "<" (body p) = true ->
                        exec p html = None).
  { intros p Hi Hr. now apply exec_needs_lt. }
  assert (S : forall b, Part000.extractSizeOptions html b = Ok []).
  { intros b. unfold Part000.extractSizeOptions, Part000.sizeContainers,
      Part000.first_group.
    rewrite !N by reflexivity. reflexivity. }
  assert (C : Part000.extractColorOptions html = Ok []).
  { unfold Part000.extractColorOptions, Part000.colorContainers,
      Part000.first_group.
    rewrite !N by reflexivity. reflexivity. }
  assert (T : Part000.titleMatch html = None).
  { unfold Part000.titleMatch. rewrite !N by reflexivity. reflexivity. }
  assert (D : Part000.descMatch html = None).
  { unfold Part000.descMatch. rewrite !N by reflexivity. reflexivity. }
  assert (G : Part000.catMatch html = None).
  { unfold Part000.catMatch. rewrite !N by reflexivity. reflexivity. }
  repeat (split; [solve [auto] |]).
  unfold Part000.extractProductInfo, Part000.productInfo,
    Part000.title_line, Part000.size_line, Part000.color_line,
    Part000.description_line, Part000.category_line.
  rewrite T, D, G, S, C. cbn [bind Nat.ltb Nat.leb List.length app].
  destruct (price_line_spec html) as [l [-> Hl]]. cbn [bind].
  apply line_of_length in Hl. rewrite app_nil_r.
  destruct (is_some (Part000.priceMatch html));
    destruct l as [| x [| y l]]; try discriminate; reflexivity.
Qed.

(** A use of X9: a plain text with a price. *)
Lemma markup_without_tags_witness :
  Part000.extractProductInfo "Blue shirt, only $5" "http://shop/p"
  = Ok (nl ++ "PRODUCT URL: http://shop/p" ++ nl ++ "RAW HTML:" ++ nl
        ++ "Blue shirt, only $5" ++ nl ++ "  ").
Proof.
  apply (markup_without_tags "Blue shirt, only $5" "http://shop/p" false).
  reflexivity.
Defined.

(** X8. Asking for the unavailable options too only adds options: every
    size returned without them is returned with them. *)
Theorem sizes_grow_with_unavailable (html : string) :
  exists available all,
    Part000.extractSizeOptions html false = Ok available
    /\ Part000.extractSizeOptions html true = Ok all
    /\ incl available all.
Proof.
  destruct (extractSizeOptions_spec html false) as [a [Ea [_ Ia]]].
  destruct (extractSizeOptions_spec html true) as [b [Eb [_ Ib]]].
  exists a, b. split; [assumption |]. split; [assumption |].
  intros c H. apply Ia in H. apply Ib. destruct H as [K [cont [item H]]].
  split; [assumption |]. exists cont, item.
  destruct H as [H1 [H2 [_ H3]]].
  split; [assumption |]. split; [assumption |]. split; [reflexivity |].
  exact H3.
Qed.

(** X10. The line of the description holds at most 200 characters of the
    description between its label and its dots: it is never longer than
    224 characters. *)
Theorem description_line_bound (html : string) :
  exists l,
    Part000.description_line html = Ok l
    /\ Forall (fun line => length line <= 224) l.
Proof.
  destruct (description_line_spec html) as [l [E [_ H]]].
  exists l. split; [assumption |].
  destruct (is_some (Part000.descMatch html)) eqn:F.
  - destruct (H eq_refl) as [text [-> L]]. constructor; [| constructor].
    rewrite !string_length_app.
    change (length "PRODUCT DESCRIPTION: ") with 21.
    change (length "...") with 3. lia.
  - unfold Part000.description_line in E.
    destruct (Part000.descMatch html); [discriminate |].
    inversion E. constructor.
Qed.

Lemma orelse_whole_length (n : nat) (a b : option match_array) (m : match_array) :
  (forall x, a = Some x -> n <= length (whole x)) ->
  (forall x, b = Some x -> n <= length (whole x)) ->
  a ||| b = Some m -> n <= length (whole m).
Proof.
  intros Ha Hb H. apply orelse_Some in H. destruct H; auto.
Qed.

(** X11. The line of the price never has an empty value: when the group of
    the price is empty, the whole text of the match stands for it. *)
Theorem price_line_value (html : string) :
  exists l,
    Part000.price_line html = Ok l
    /\ Forall (fun line => exists value,
                 line = "PRODUCT PRICE: " ++ value /\ value <> "") l.
Proof.
  unfold Part000.price_line.
  destruct (Part000.priceMatch html) as [m |] eqn:E.
  2:{ exists []. split; [reflexivity | constructor]. }
  eexists. split; [reflexivity |]. constructor; [| constructor].
  eexists. split; [reflexivity |].
  assert (W : 1 <= length (whole m)).
  { assert (P : forall p x, 1 <= min_len (body p) ->
                           exec p html = Some x -> 1 <= length (whole x)).
    { intros p x Hp Hx. apply search_whole_length in Hx. lia. }
    revert E. unfold Part000.priceMatch.
    apply orelse_whole_length; [intros x; apply orelse_whole_length |];
      intros y; apply P; vm_compute; lia. }
  unfold Part000.or_else. destruct (group 1 m) as [g |].
  - destruct (truthy g) eqn:T; [now apply truthy_true |].
    intros F. rewrite F in W. inversion W.
  - intros F. rewrite F in W. inversion W.
Qed.

(* ================================================================== *)
(** * Further properties of the completion client and of the endpoint *)

Lemma after_last_close_none (s : string) :
  mem "}" s = false -> after_last_close s = None.
Proof.
  induction s as [| x t IH]; cbn [mem after_last_close]; [reflexivity |].
  intros H. apply orb_false_elim in H. destruct H as [H1 H2].
  now rewrite IH, H1.
Qed.

Lemma after_last_close_last (mid post : string) :
  mem "}" post = false ->
  after_last_close (mid ++ String "}" post) = Some post.
Proof.
  intros H. induction mid as [| x mid IH]; cbn [append after_last_close].
  - now rewrite after_last_close_none, Ascii.eqb_refl.
  - now rewrite IH.
Qed.

(** The span of an object between a text without opening brace and a text
    without closing brace is the object. *)
Lemma brace_span_wrapped (pre mid post : string) :
  mem "{" pre = false -> mem "}" post = false ->
  brace_span (pre ++ String "{" (mid ++ String "}" post))
  = Some (String "{" (mid ++ String "}" "")).
Proof.
  intros Hp Hq. induction pre as [| x pre IH]; cbn [append brace_span].
  - rewrite Ascii.eqb_refl, after_last_close_last by assumption.
    f_equal.
    pose proof (substring_prefix (String "{" (mid ++ String "}" "")) post)
      as P.
    replace (String "{" (mid ++ String "}" "") ++ post)
      with (String "{" (mid ++ String "}" post)) in P; [exact P |].
    cbn [append]. f_equal. now rewrite append_assoc.
  - cbn [mem] in Hp. apply orb_false_elim in Hp. destruct Hp as [H1 H2].
    rewrite H1. now apply IH.
Qed.

(** X4. An answer that wraps a JSON object in prose is recovered by both
    versions: when the strict parse of the answer fails, the prose before
    the object has no opening brace, the prose after it has no closing
    brace and the object parses, the parser returns the parsed object. *)
Theorem object_in_prose_is_recovered (h : host) (url pre mid post e : string)
    (v : json) :
  mem "{" pre = false -> mem "}" post = false ->
  JSON_parse h (pre ++ String "{" (mid ++ String "}" post)) = Throw e ->
  JSON_parse h (String "{" (mid ++ String "}" "")) = Ok v ->
  Part000.parse_content h url (pre ++ String "{" (mid ++ String "}" post))
  = Ok v
  /\ ProductService.parse_content h url
       (pre ++ String "{" (mid ++ String "}" post))
     = Ok v.
Proof.
  intros Hp Hq He Hv.
  rewrite Part000_parse_content_policy, ProductService_parse_content_policy.
  unfold parsing_policy.
  now rewrite He, (brace_span_wrapped pre mid post Hp Hq), Hv.
Qed.

(** A use of X4: an object between two sentences. *)
Lemma object_in_prose_is_recovered_witness :
  Part000.parse_content (fixed_host (Ok "") (says ""))
    "http://shop/p" (dq "Sure! {`title`:`Tee`} Anything else?")
  = Ok (JObject [("title", JString "Tee")])
  /\ ProductService.parse_content (fixed_host (Ok "") (says ""))
       "http://shop/p" (dq "Sure! {`title`:`Tee`} Anything else?")
     = Ok (JObject [("title", JString "Tee")]).
Proof.
  apply (object_in_prose_is_recovered (fixed_host (Ok "") (says ""))
           "http://shop/p" "Sure! " (dq "`title`:`Tee`") " Anything else?"
           "Unexpected token in JSON" (JObject [("title", JString "Tee")]));
    vm_compute; reflexivity.
Defined.




(** X3. The endpoint does not check the shape of what the model answers:
    when the text of the answer is valid JSON, its value is the body of the
    answer of the endpoint, with the status 200, whatever that value is. *)
Theorem answer_is_returned_unchecked (svc : service) (h : host)
    (u k html content : string) (others : list (option string)) (v : json) :
  svc = Part000.exports \/ svc = ProductService.exports ->
  u <> "" -> k <> "" ->
  axios_get h u userAgent = Ok html ->
  (forall r, chat_completions_create h k r
             = Ok (Completion (Some content :: others))) ->
  JSON_parse h content = Ok v ->
  snd (Server.parse_product svc h (Server.Body (Some u) (Some k)))
  = Ok (Server.Response 200 v).
Proof.
  intros Hs Hu Hk Hf Hc Hv. apply truthy_true in Hu, Hk.
  unfold Server.parse_product. cbn [Server.url Server.openaiApiKey].
  rewrite Hu, Hk. cbn [negb orb].
  rewrite (fetchProductPage_Ok _ _ _ _ Hs Hf). unfold io_bind at 1.
  assert (E : exists r,
            extractProductData svc h html u k
            = ([CompletionCall k r], Ok v)).
  { destruct Hs as [-> | ->]; cbn [extractProductData Part000.exports
      ProductService.exports].
    - destruct (Part000_extractProductData_spec h html u k) as [r ->].
      exists r. rewrite Hc. unfold record_for, parsing_policy.
      cbn [content_of bind first_content logged choices]. now rewrite Hv.
    - destruct (ProductService_extractProductData_spec h html u k)
        as [r ->].
      exists r. rewrite Hc. unfold record_for, parsing_policy.
      cbn [content_of bind first_content logged choices]. now rewrite Hv. }
  destruct E as [r ->]. reflexivity.
Qed.

(** A use of X3: the answer [null]. *)
Lemma answer_is_returned_unchecked_witness :
  snd (Server.parse_product ProductService.exports
         (fixed_host (Ok "<h1>Tee</h1>") (says "null"))
         (Server.Body (Some "http://shop/p") (Some "sk-key")))
  = Ok (Server.Response 200 JNull).
Proof.
  apply (answer_is_returned_unchecked ProductService.exports
           (fixed_host (Ok "<h1>Tee</h1>") (says "null"))
           "http://shop/p" "sk-key" "<h1>Tee</h1>" "null" [] JNull);
    [now right | discriminate | discriminate | reflexivity
    | reflexivity | vm_compute; reflexivity].
Defined.

(* ================================================================== *)
(** * The reduction of the markup *)

(** A replacement no longer than what it replaces does not lengthen the
    text. *)
Lemma replace_scan_length (p : pattern) (by_ : string) :
  (forall before s e, match_here p before s = Some e ->
                      length by_ <= length s - length (rest e)) ->
  forall s before skip,
  length (replace_scan p by_ before s skip) + Nat.min skip (length s)
  <= length s.
Proof.
  intros Hm s. induction s as [| c t IH]; intros before skip.
  - destruct skip as [| n]; cbn [replace_scan]; [| simpl; lia].
    destruct (match_here p before "") as [e |] eqn:E; [| simpl; lia].
    apply Hm in E. simpl in E.
    destruct (0 - length (rest e)); simpl; lia.
  - destruct skip as [| n]; cbn [replace_scan].
    + destruct (match_here p before (String c t)) as [e |] eqn:E.
      * apply Hm in E.
        destruct (length (String c t) - length (rest e)) as [| m] eqn:L.
        -- rewrite string_length_app. cbn [length].
           specialize (IH (Some c) 0). lia.
        -- rewrite string_length_app. specialize (IH (Some c) m).
           assert (m <= length t) by (cbn [length] in L; lia).
           cbn [length]. lia.
      * specialize (IH (Some c) 0). cbn [length]. lia.
    + specialize (IH (Some c) n). cbn [length]. lia.
Qed.

Lemma replace_all_length (p : pattern) (by_ : string) (s : string) :
  length by_ <= min_len (body p) ->
  length (replace_all p by_ s) <= length s.
Proof.
  intros H. unfold replace_all.
  assert (Hm : forall before t e,
             match_here p before t = Some e ->
             length by_ <= length t - length (rest e)).
  { intros before t e E. apply (match_here_read p "000"%char) in E.
    destruct E as [pre [R [M _]]]. rewrite R, consumed_length. lia. }
  pose proof (replace_scan_length p by_ Hm s None 0). lia.
Qed.

(** X5. [cleanHtml] never lengthens the markup. *)
Theorem cleanHtml_shortens (html : string) :
  length (Part000.cleanHtml html) <= length html.
Proof.
  unfold Part000.cleanHtml.
  repeat (eapply Nat.le_trans;
          [apply replace_all_length; vm_compute; lia |]).
  apply Nat.le_refl.
Qed.

Lemma prompt_length (a b c url x : string) :
  length (a ++ url ++ b ++ url ++ c ++ x)
  = length (a ++ "" ++ b ++ "" ++ c ++ "") + 2 * length url + length x.
Proof. rewrite !string_length_app. cbn [length]. lia. Qed.

(** X7. [simplifyHtml] of productService.js returns at most 3000
    characters, so the user message of that version is bounded: it is never
    longer than its fixed text, twice the url and 3000 characters. *)
Theorem simplifyHtml_bound (html url : string) :
  length (ProductService.simplifyHtml html) <= 3000
  /\ length (ProductService.user_prompt url
               (ProductService.simplifyHtml html))
     <= length (ProductService.user_prompt "" "") + 2 * length url + 3000.
Proof.
  assert (B : length (ProductService.simplifyHtml html) <= 3000).
  { unfold ProductService.simplifyHtml. cbv zeta.
    match goal with
    | |- context [if ?c then _ else _] => destruct c
    end; rewrite length_substring0; apply Nat.le_min_l. }
  split; [exact B |].
  unfold ProductService.user_prompt. rewrite prompt_length.
  revert B. generalize (length (ProductService.simplifyHtml html)).
  generalize 3000. intros bound n B. lia.
Qed.

Lemma trimStart_length (s : string) : length (trimStart s) <= length s.
Proof.
  induction s as [| c t IH]; cbn [trimStart]; [apply Nat.le_refl |].
  destruct (is_space c); cbn [length]; lia.
Qed.

Lemma trimStart_head (s : string) : head_space (trimStart s) = false.
Proof.
  induction s as [| c t IH]; cbn [trimStart]; [reflexivity |].
  destruct (is_space c) eqn:E; [exact IH | cbn [head_space]; exact E].
Qed.

(** [\s*] at the end of a pattern reads the leading white space. *)
Lemma star_space (t : string) :
  forall fuel p caps, length t < fuel ->
  star_loop true (rmatch false (Cls Space)) Some fuel (MState t p caps)
  = Some (MState (trimStart t) (last_space p t) caps).
Proof.
  induction t as [| x t IH]; intros fuel p caps Hf;
    (destruct fuel as [| f]; [inversion Hf |]).
  - reflexivity.
  - cbn [star_loop rmatch eat rest Regex.caps in_cset trimStart last_space].
    destruct (is_space x); [| reflexivity].
    replace (Nat.ltb (length t) (length (String x t))) with true
      by (symmetry; apply Nat.ltb_lt; simpl; lia).
    rewrite IH by (simpl in Hf; lia). reflexivity.
Qed.

Lemma match_here_blanks (before : option ascii) (s : string) :
  match_here blanks before s
  = match s with
    | String c (String d t) =>
        if is_space c && is_space d
        then Some (MState (trimStart t) (last_space (Some d) t) [])
        else None
    | _ => None
    end.
Proof.
  destruct s as [| c [| d t]]; unfold match_here, blanks, AtLeast2;
    cbn [body icase rmatch eat rest caps in_cset].
  - reflexivity.
  - now destruct (is_space c).
  - destruct (is_space c); [| reflexivity].
    destruct (is_space d); [| reflexivity].
    apply star_space. simpl. lia.
Qed.

(** One step of [s.replace(/\s{2,}/g, ' ')]. *)
Lemma replace_blanks_cons (before : option ascii) (c : ascii) (t : string) :
  replace_scan blanks " " before (String c t) 0
  = if is_space c && head_space t
    then String " " (replace_scan blanks " " (Some c) t
                       (length t - length (trimStart t)))
    else String c (replace_scan blanks " " (Some c) t 0).
Proof.
  cbn [replace_scan]. rewrite match_here_blanks.
  destruct t as [| d t]; cbn [head_space].
  - now rewrite andb_false_r.
  - destruct (is_space c && is_space d) eqn:E; [| reflexivity].
    apply andb_prop in E. destruct E as [_ E].
    cbn [rest trimStart]. rewrite E.
    pose proof (trimStart_length t) as L.
    replace (length (String c (String d t)) - length (trimStart t))
      with (S (length (String d t) - length (trimStart t)))
      by (cbn [length]; lia).
    reflexivity.
Qed.

Lemma replace_blanks_empty (before : option ascii) (skip : nat) :
  replace_scan blanks " " before "" skip = "".
Proof. now destruct skip. Qed.

(** Passing the leading white space of a text. *)
Lemma replace_blanks_skip (t : string) :
  forall before,
  exists before',
    replace_scan blanks " " before t (length t - length (trimStart t))
    = replace_scan blanks " " before' (trimStart t) 0.
Proof.
  induction t as [| c t IH]; intros before.
  - now exists before.
  - cbn [trimStart]. destruct (is_space c).
    + pose proof (trimStart_length t) as L.
      replace (length (String c t) - length (trimStart t))
        with (S (length t - length (trimStart t)))
        by (cbn [length]; lia).
      cbn [replace_scan]. apply IH.
    + exists before. now rewrite Nat.sub_diag.
Qed.

Lemma replace_blanks_head (s : string) (before : option ascii) :
  head_space s = false ->
  head_space (replace_scan blanks " " before s 0) = false.
Proof.
  destruct s as [| c t]; [reflexivity |]. cbn [head_space]. intros H.
  rewrite replace_blanks_cons, H. exact H.
Qed.

Lemma single_spaced_cons (c : ascii) (t : string) :
  is_space c && head_space t = false -> single_spaced t = true ->
  single_spaced (String c t) = true.
Proof.
  intros H1 H2. destruct t as [| d t]; [reflexivity |].
  cbn [single_spaced head_space] in *. now rewrite H1, H2.
Qed.

Lemma replace_blanks_single_spaced (n : nat) :
  forall s before, length s <= n ->
  single_spaced (replace_scan blanks " " before s 0) = true.
Proof.
  induction n as [| n IH]; intros s before Hn.
  - destruct s; [reflexivity | inversion Hn].
  - destruct s as [| c t]; [reflexivity |].
    rewrite replace_blanks_cons.
    destruct (is_space c && head_space t) eqn:E.
    + destruct (replace_blanks_skip t (Some c)) as [b' ->].
      pose proof (trimStart_length t) as L.
      apply single_spaced_cons.
      * rewrite replace_blanks_head by apply trimStart_head.
        apply andb_false_r.
      * apply IH. cbn [length] in Hn. lia.
    + apply single_spaced_cons.
      * destruct (is_space c) eqn:C; [| reflexivity].
        cbn [andb] in E |- *. now apply replace_blanks_head.
      * apply IH. cbn [length] in Hn. lia.
Qed.

(** X6. The markup [cleanHtml] returns never has two white-space characters
    in a row. *)
Theorem cleanHtml_single_spaced (html : string) :
  single_spaced (Part000.cleanHtml html) = true.
Proof.
  unfold Part000.cleanHtml, replace_all.
  eapply replace_blanks_single_spaced. apply Nat.le_refl.
Qed.

(* ================================================================== *)
(** * The removal of tags *)



















